(** * ShoppingDem/backend: the identity-provider client (package auth)

    A shallow embedding of the Go client in [shop/pkg/models/user.go]
    (package [auth]): [makeRequest], [RegisterUser], [GetUser],
    [GetUserFactors], [VerifyEmailOrPhone] and [VerifyPasscode].

    - Go strings are [string], byte by byte; [int] status codes are [Z].
    - What [json.Marshal] makes of a Go string is [json_string]: valid
      UTF-8 is kept, every other byte becomes U+FFFD.
    - A Go [error] is modelled by the text of its [Error()] method, built
      exactly as the [fmt.Errorf] / [errors.New] calls build it.
    - A function returning [(T, error)] returns [result T].
    - Code that talks to the network runs in the monad [M]: it threads the
      state of the outside world and the list of requests handed to the
      HTTP client so far, and stops at the first error.
    - The [context.Context] argument is only passed on to the HTTP round
      trip; a cancelled or expired context is one of the ways the world
      makes [HTTPClient.Do] fail.
    - What the code takes from the Go libraries and cannot be read from the
      repository ([encoding/json] decoding of a response body, the validity
      check of [http.NewRequestWithContext], the HTTP round trip) is the
      interface [Platform]; every theorem holds for every platform. *)

From Stdlib Require Import ZArith Ascii String List DecimalString.
From stdpp Require Import base gmap strings list.

Set Warnings "-register-all".
Set Default Proof Using "Type".

Open Scope Z_scope.
Open Scope string_scope.

(** ** Results and formatting verbs *)

Abbreviation error := string (only parsing).

Inductive result (A : Type) : Type :=
| Ok (a : A)
| Err (e : error).
Arguments Ok {A} a.
Arguments Err {A} e.

Definition is_Err {A} (r : result A) : Prop :=
  match r with Ok _ => False | Err _ => True end.

(** [%d] of [fmt]: a Go [int] in decimal. *)
Definition fmt_d (n : Z) : string := NilZero.string_of_int (Z.to_int n).

(** [%t] of [fmt]. *)
Definition fmt_t (b : bool) : string := if b then "true" else "false".

(** ** Strings as [encoding/json] writes them

    [json.Marshal] writes a Go string rune by rune with
    [utf8.DecodeRuneInString]: a well-formed rune is written as it is
    (escaped or not, a reader gets the same rune back), and every byte
    that does not start a well-formed rune is written as U+FFFD.
    [json_string s] is the string a reader of the JSON text gets back,
    in UTF-8. *)

Definition byte_in (lo hi : N) (b : ascii) : bool :=
  (lo <=? N_of_ascii b)%N && (N_of_ascii b <=? hi)%N.

(** The width of the rune [utf8.DecodeRuneInString] finds at the head of
    [s]; 0 when [s] is empty or its first byte starts no well-formed
    rune (the decoder then returns [RuneError] and consumes one byte). *)
Definition utf8_width (s : string) : nat :=
  match s with
  | EmptyString => 0%nat
  | String b0 r =>
      if byte_in 0 127 b0 then 1%nat
      else
        match r with
        | EmptyString => 0%nat
        | String b1 r1 =>
            if byte_in 194 223 b0 then
              if byte_in 128 191 b1 then 2%nat else 0%nat
            else if (byte_in 224 224 b0 && byte_in 160 191 b1)
                    || (byte_in 225 236 b0 && byte_in 128 191 b1)
                    || (byte_in 237 237 b0 && byte_in 128 159 b1)
                    || (byte_in 238 239 b0 && byte_in 128 191 b1)
            then
              match r1 with
              | String b2 _ => if byte_in 128 191 b2 then 3%nat else 0%nat
              | EmptyString => 0%nat
              end
            else if (byte_in 240 240 b0 && byte_in 144 191 b1)
                    || (byte_in 241 243 b0 && byte_in 128 191 b1)
                    || (byte_in 244 244 b0 && byte_in 128 143 b1)
            then
              match r1 with
              | String b2 (String b3 _) =>
                  if byte_in 128 191 b2 && byte_in 128 191 b3 then 4%nat else 0%nat
              | _ => 0%nat
              end
            else 0%nat
        end
  end.

(** U+FFFD in UTF-8: the bytes EF BF BD. *)
Definition utf8_RuneError : string :=
  String "239"%char (String "191"%char (String "189"%char EmptyString)).

Fixpoint json_string (s : string) : string :=
  match s with
  | EmptyString => EmptyString
  | String b0 r =>
      match utf8_width s, r with
      | 1%nat, _ => String b0 (json_string r)
      | 2%nat, String b1 r1 => String b0 (String b1 (json_string r1))
      | 3%nat, String b1 (String b2 r2) =>
          String b0 (String b1 (String b2 (json_string r2)))
      | 4%nat, String b1 (String b2 (String b3 r3)) =>
          String b0 (String b1 (String b2 (String b3 (json_string r3))))
      | _, _ => utf8_RuneError ++ json_string r
      end
  end.

(** [utf8.ValidString]. *)
Fixpoint utf8_valid (s : string) : bool :=
  match s with
  | EmptyString => true
  | String b0 r =>
      match utf8_width s, r with
      | 1%nat, _ => utf8_valid r
      | 2%nat, String _ r1 => utf8_valid r1
      | 3%nat, String _ (String _ r2) => utf8_valid r2
      | 4%nat, String _ (String _ (String _ r3)) => utf8_valid r3
      | _, _ => false
      end
  end.

(** ** JSON documents written by [json.Marshal]

    Only the shapes the two marshalled structs produce: objects (fields in
    struct order), strings and booleans. A [JString] holds the string a
    reader of the JSON text gets back, see [json_string]. *)

Inductive JSON : Type :=
| JBool (b : bool)
| JString (s : string)
| JObject (fields : list (string * JSON)).

(** The value of the first field named [k] of an object. *)
Fixpoint JSON_fields_get (k : string) (fields : list (string * JSON)) : option JSON :=
  match fields with
  | [] => None
  | (k', v) :: rest => if String.eqb k k' then Some v else JSON_fields_get k rest
  end.

Definition JSON_get (k : string) (doc : JSON) : option JSON :=
  match doc with
  | JObject fields => JSON_fields_get k fields
  | _ => None
  end.

(** A struct field tagged [omitempty]: left out when the Go string is
    empty. *)
Definition omitempty (k v : string) : list (string * JSON) :=
  if String.eqb v "" then [] else [(k, JString (json_string v))].

(** ** Values decoded into [interface{}]

    What [encoding/json] stores in an [interface{}]: [nil], [bool],
    [float64] (kept by its bits), [string], [[]interface{}] and
    [map[string]interface{}]. *)

Inductive any : Type :=
| any_nil
| any_bool (b : bool)
| any_float64 (bits : Z)
| any_string (s : string)
| any_slice (l : list any)
| any_map (m : gmap string any).

(** ** The structs of the package *)

Record UserProfile := {
  FirstName : string;
  LastName : string;
  Email : string;
  MobilePhone : string;
  Login : string
}.

Record RegistrationRequest := {
  Profile : UserProfile;
  Activate : bool;
  SendEmail : bool;
  SendSMS : bool
}.

(** [req.Profile.Login = v] on the by-value copy of the request. *)
Definition set_Profile_Login (req : RegistrationRequest) (v : string) : RegistrationRequest :=
  {| Profile := {| FirstName := FirstName (Profile req);
                   LastName := LastName (Profile req);
                   Email := Email (Profile req);
                   MobilePhone := MobilePhone (Profile req);
                   Login := v |};
     Activate := Activate req;
     SendEmail := SendEmail req;
     SendSMS := SendSMS req |}.

(** The [User] struct of package [auth]; its [Profile] is an anonymous
    struct. The module keeps the field names apart from those of
    [UserProfile]. *)
Module User.

Record Profile_t := {
  Email : string;
  MobilePhone : string
}.

Record t := {
  ID : string;
  Status : string;
  Profile : Profile_t
}.

End User.

Record ErrorCause := { Cause_ErrorSummary : string }.

Record ErrorResponse := {
  ErrorCode : string;
  ErrorSummary : string;
  ErrorLink : string;
  ErrorID : string;
  ErrorCauses : list ErrorCause
}.

Record VerifyFactorRequest := {
  PassCode : string;
  StateToken : string
}.

Record VerifyFactorResponse := {
  VFR_Status : string;
  SessionToken : string
}.

(** [json.Marshal] of a [UserProfile], by its struct tags. *)
Definition json_Marshal_UserProfile (p : UserProfile) : JSON :=
  JObject ([("firstName", JString (json_string (FirstName p)));
            ("lastName", JString (json_string (LastName p)))]
           ++ omitempty "email" (Email p)
           ++ omitempty "mobilePhone" (MobilePhone p)
           ++ [("login", JString (json_string (Login p)))]).

(** [json.Marshal] of a [RegistrationRequest]. Marshalling a struct of
    strings and booleans has no failing case. *)
Definition json_Marshal_RegistrationRequest (req : RegistrationRequest) : result JSON :=
  Ok (JObject [("profile", json_Marshal_UserProfile (Profile req));
               ("activate", JBool (Activate req));
               ("sendEmail", JBool (SendEmail req));
               ("sendSMS", JBool (SendSMS req))]).

(** [json.Marshal] of a [VerifyFactorRequest]. *)
Definition json_Marshal_VerifyFactorRequest (v : VerifyFactorRequest) : result JSON :=
  Ok (JObject [("passCode", JString (json_string (PassCode v)));
               ("stateToken", JString (json_string (StateToken v)))]).

(** ** HTTP requests and responses *)

(** [Header] is an [http.Header]: canonical key to values. *)
Record Request := {
  Method : string;
  URL : string;
  Header : gmap string (list string);
  Body : option JSON
}.

(** [req.Header.Set(key, value)]; the three keys the client sets are
    already in canonical form. *)
Definition Header_Set (key value : string) (req : Request) : Request :=
  {| Method := Method req;
     URL := URL req;
     Header := <[key := [value]]> (Header req);
     Body := Body req |}.

(** What [HTTPClient.Do] reports on failure: the error text, and whether
    [errors.As(err, &urlErr)] holds with [urlErr.Timeout()]. *)
Record DoError := {
  do_message : string;
  do_url_timeout : bool
}.

(** ** The libraries under the client *)

Class Platform := {
  (** the stream behind [resp.Body] *)
  RespBody_t : Type;
  (** the network and the provider behind it, as one state *)
  World : Type;
  (** [json.NewDecoder(resp.Body).Decode(&v)] at each of the four targets *)
  json_Decode_User : RespBody_t -> result User.t;
  json_Decode_factors : RespBody_t -> result (list any);
  json_Decode_ErrorResponse : RespBody_t -> result ErrorResponse;
  json_Decode_VerifyFactorResponse : RespBody_t -> result VerifyFactorResponse;
  (** the error of [http.NewRequestWithContext] for a method and a URL *)
  http_NewRequest_error : string -> string -> option error
}.

Section Client.
Context `{P : Platform}.

Record Response := {
  StatusCode : Z;
  RespBody : RespBody_t
}.

Inductive DoResult : Type :=
| DoOk (resp : Response)
| DoFail (err : DoError).

(** [*http.Client], by its [Do] method. *)
Definition Client_t : Type := Request -> World -> DoResult * World.

Record Auth := {
  Domain : string;
  APIToken : string;
  ClientID : string;
  ClientSecret : string;
  HTTPClient : Client_t
}.

(** [New]; [default_client] stands for [&http.Client{Timeout: 10 * time.Second}]. *)
Definition New (default_client : Client_t) (domain apiToken clientID clientSecret : string) : Auth :=
  {| Domain := domain;
     APIToken := apiToken;
     ClientID := clientID;
     ClientSecret := clientSecret;
     HTTPClient := default_client |}.

(** [http.NewRequestWithContext]: a request with an empty header. *)
Definition http_NewRequestWithContext (method urlStr : string) (body : option JSON) : result Request :=
  match http_NewRequest_error method urlStr with
  | Some err => Err err
  | None => Ok {| Method := method; URL := urlStr; Header := ∅; Body := body |}
  end.

(** ** The monad of the client *)

Record State := {
  world : World;
  sent : list Request
}.

Definition M (A : Type) : Type := State -> result A * State.

Definition ret {A} (a : A) : M A := fun st => (Ok a, st).

Definition fail {A} (e : error) : M A := fun st => (Err e, st).

Definition bind {A B} (m : M A) (k : A -> M B) : M B :=
  fun st =>
    match m st with
    | (Ok a, st') => k a st'
    | (Err e, st') => (Err e, st')
    end.

Definition lift {A} (r : result A) : M A := fun st => (r, st).

(** [o.HTTPClient.Do(req)]: the round trip, recorded in [sent]. *)
Definition HTTPClient_Do (o : Auth) (req : Request) : State -> DoResult * State :=
  fun st =>
    let '(r, w) := HTTPClient o req (world st) in
    (r, {| world := w; sent := (sent st ++ [req])%list |}).

End Client.

Arguments Response {P}.
Arguments DoResult {P}.
Arguments Client_t {P}.
Arguments Auth {P}.
Arguments State {P}.
Arguments M {P} A.

Declare Scope go_scope.
Delimit Scope go_scope with go.
Notation "x <- c ;; k" := (bind c (fun x => k))
  (at level 100, c at next level, right associativity) : go_scope.
Open Scope go_scope.

Section Operations.
Context `{P : Platform}.

(** ** [makeRequest] *)

Definition makeRequest (o : Auth) (method urlStr : string) (body : option JSON) : M Response :=
  fun st =>
    match http_NewRequestWithContext method urlStr body with
    | Err err => (Err ("failed to create request: " +:+ err), st)
    | Ok req =>
        let req := Header_Set "Accept" "application/json" req in
        let req := Header_Set "Content-Type" "application/json" req in
        let req := Header_Set "Authorization" ("SSWS " +:+ APIToken o) req in
        match HTTPClient_Do o req st with
        | (DoFail err, st') =>
            if do_url_timeout err
            then (Err ("request timed out: " +:+ do_message err), st')
            else (Err ("request failed: " +:+ do_message err), st')
        | (DoOk resp, st') => (Ok resp, st')
        end
    end.

(** ** [RegisterUser] *)

(** The block "If login is not provided, set it to email (if available)
    or mobilePhone" of [RegisterUser]. *)
Definition RegisterUser_login (req : RegistrationRequest) : RegistrationRequest :=
  if String.eqb (Login (Profile req)) "" then
    if negb (String.eqb (Email (Profile req)) "")
    then set_Profile_Login req (Email (Profile req))
    else set_Profile_Login req (MobilePhone (Profile req))
  else req.

Definition RegisterUser (o : Auth) (req : RegistrationRequest) : M string :=
  if String.eqb (Email (Profile req)) "" && String.eqb (MobilePhone (Profile req)) "" then
    fail "at least one of email or mobilePhone must be provided for registration"
  else
    let req := RegisterUser_login req in
    let url := Domain o +:+ "/api/v1/users?activate=" +:+ fmt_t (Activate req) in
    match json_Marshal_RegistrationRequest req with
    | Err err => fail ("failed to marshal registration request: " +:+ err)
    | Ok body =>
        resp <- makeRequest o "POST" url (Some body) ;;
        if (200 <=? StatusCode resp)%Z && (StatusCode resp <? 300)%Z then
          match json_Decode_User (RespBody resp) with
          | Err err => fail ("failed to decode user response: " +:+ err)
          | Ok user => ret (ClientID o)
          end
        else
          match json_Decode_ErrorResponse (RespBody resp) with
          | Err err =>
              fail ("failed to decode error response (status: "
                    +:+ fmt_d (StatusCode resp) +:+ "): " +:+ err)
          | Ok errorResp =>
              fail ("failed to register user (status: "
                    +:+ fmt_d (StatusCode resp) +:+ "): " +:+ ErrorSummary errorResp)
          end
    end.

(** ** [GetUser] *)

Definition GetUser (o : Auth) (identifier : string) : M User.t :=
  let url := Domain o +:+ "/api/v1/users/" +:+ identifier in
  resp <- makeRequest o "GET" url None ;;
  if (StatusCode resp =? 200)%Z then
    match json_Decode_User (RespBody resp) with
    | Err err => fail ("failed to decode user response: " +:+ err)
    | Ok user => ret user
    end
  else
    match json_Decode_ErrorResponse (RespBody resp) with
    | Err err =>
        fail ("failed to decode error response (status: "
              +:+ fmt_d (StatusCode resp) +:+ "): " +:+ err)
    | Ok errorResp =>
        fail ("failed to get user (status: "
              +:+ fmt_d (StatusCode resp) +:+ "): " +:+ ErrorSummary errorResp)
    end.

(** ** [GetUserFactors] *)

Definition GetUserFactors (o : Auth) (userID : string) : M (list any) :=
  let url := Domain o +:+ "/api/v1/users/" +:+ userID +:+ "/factors" in
  resp <- makeRequest o "GET" url None ;;
  if (StatusCode resp =? 200)%Z then
    match json_Decode_factors (RespBody resp) with
    | Err err => fail ("failed to decode factors response: " +:+ err)
    | Ok factors => ret factors
    end
  else
    match json_Decode_ErrorResponse (RespBody resp) with
    | Err err =>
        fail ("failed to decode error response (status: "
              +:+ fmt_d (StatusCode resp) +:+ "): " +:+ err)
    | Ok errorResp =>
        fail ("failed to get user factors (status: "
              +:+ fmt_d (StatusCode resp) +:+ "): " +:+ ErrorSummary errorResp)
    end.

(** ** [VerifyEmailOrPhone] *)

(** The [for _, f := range factors] loop of [VerifyEmailOrPhone]; the
    result is [(factorID, factorType)] when the loop is left, both [""]
    when no iteration reached the [break]. *)
Fixpoint VerifyEmailOrPhone_loop (user : User.t) (identifier : string)
    (factors : list any) : string * string :=
  match factors with
  | [] => ("", "")
  | f :: rest =>
      match f with
      | any_map factorMap =>
          match factorMap !! "provider" with
          | Some (any_string provider) =>
              if negb (String.eqb provider "OKTA") then
                VerifyEmailOrPhone_loop user identifier rest
              else
                match factorMap !! "factorType" with
                | Some (any_string fType) =>
                    if (String.eqb fType "email"
                        && negb (String.eqb (User.Email (User.Profile user)) "")
                        && (String.eqb identifier (User.Email (User.Profile user))
                            || String.eqb identifier (User.ID user)))
                       || (String.eqb fType "sms"
                           && negb (String.eqb (User.MobilePhone (User.Profile user)) "")
                           && (String.eqb identifier (User.MobilePhone (User.Profile user))
                               || String.eqb identifier (User.ID user)))
                    then
                      let factorID :=
                        match factorMap !! "id" with
                        | Some (any_string s) => s
                        | _ => ""
                        end in
                      (factorID, fType)
                    else VerifyEmailOrPhone_loop user identifier rest
                | _ => VerifyEmailOrPhone_loop user identifier rest
                end
          | _ => VerifyEmailOrPhone_loop user identifier rest
          end
      | _ => VerifyEmailOrPhone_loop user identifier rest
      end
  end.

(** The loop and the [factorID == ""] check after it. *)
Definition VerifyEmailOrPhone_factor (user : User.t) (identifier : string)
    (factors : list any) : result (string * string) :=
  let '(factorID, factorType) := VerifyEmailOrPhone_loop user identifier factors in
  if String.eqb factorID "" then Err "email or SMS factor not found for user"
  else Ok (factorID, factorType).

Definition VerifyEmailOrPhone (o : Auth) (identifier : string) : M string :=
  user <- GetUser o identifier ;;
  factors <- GetUserFactors o (User.ID user) ;;
  found <- lift (VerifyEmailOrPhone_factor user identifier factors) ;;
  let factorID := fst found in
  let factorType := snd found in
  let challengeURL :=
    Domain o +:+ "/api/v1/users/" +:+ User.ID user +:+ "/factors/" +:+ factorID +:+ "/verify" in
  resp <- makeRequest o "POST" challengeURL None ;;
  if negb (StatusCode resp =? 200)%Z && negb (StatusCode resp =? 202)%Z then
    match json_Decode_ErrorResponse (RespBody resp) with
    | Err err =>
        fail ("failed to decode error response (status: "
              +:+ fmt_d (StatusCode resp) +:+ "): " +:+ err)
    | Ok errorResp =>
        fail ("failed to trigger " +:+ factorType +:+ " verification (status: "
              +:+ fmt_d (StatusCode resp) +:+ "): " +:+ ErrorSummary errorResp)
    end
  else
    match json_Decode_VerifyFactorResponse (RespBody resp) with
    | Err err => fail ("failed to decode verification response: " +:+ err)
    | Ok verifyResponse => ret (SessionToken verifyResponse)
    end.

(** ** [VerifyPasscode] *)

(** The [for _, f := range factors] loop of [VerifyPasscode]. *)
Fixpoint VerifyPasscode_loop (user : User.t) (identifier : string)
    (factors : list any) : string * string :=
  match factors with
  | [] => ("", "")
  | f :: rest =>
      match f with
      | any_map factorMap =>
          match factorMap !! "provider" with
          | Some (any_string provider) =>
              if negb (String.eqb provider "OKTA") then
                VerifyPasscode_loop user identifier rest
              else
                match factorMap !! "factorType" with
                | Some (any_string fType) =>
                    if (String.eqb fType "email"
                        && negb (String.eqb (User.Email (User.Profile user)) "")
                        && (String.eqb identifier (User.Email (User.Profile user))
                            || String.eqb identifier (User.ID user)))
                       || (String.eqb fType "sms"
                           && negb (String.eqb (User.MobilePhone (User.Profile user)) "")
                           && (String.eqb identifier (User.MobilePhone (User.Profile user))
                               || String.eqb identifier (User.ID user)))
                    then
                      let factorID :=
                        match factorMap !! "id" with
                        | Some (any_string s) => s
                        | _ => ""
                        end in
                      (factorID, fType)
                    else VerifyPasscode_loop user identifier rest
                | _ => VerifyPasscode_loop user identifier rest
                end
          | _ => VerifyPasscode_loop user identifier rest
          end
      | _ => VerifyPasscode_loop user identifier rest
      end
  end.

Definition VerifyPasscode_factor (user : User.t) (identifier : string)
    (factors : list any) : result (string * string) :=
  let '(factorID, factorType) := VerifyPasscode_loop user identifier factors in
  if String.eqb factorID "" then Err "email or SMS factor not found for user"
  else Ok (factorID, factorType).

Definition VerifyPasscode (o : Auth) (identifier passcode : string) : M string :=
  user <- GetUser o identifier ;;
  factors <- GetUserFactors o (User.ID user) ;;
  found <- lift (VerifyPasscode_factor user identifier factors) ;;
  let factorID := fst found in
  let factorType := snd found in
  let verifyURL :=
    Domain o +:+ "/api/v1/users/" +:+ User.ID user +:+ "/factors/" +:+ factorID +:+ "/verify" in
  let verifyReq := {| PassCode := passcode; StateToken := "" |} in
  match json_Marshal_VerifyFactorRequest verifyReq with
  | Err err => fail ("failed to marshal verification request: " +:+ err)
  | Ok body =>
      resp <- makeRequest o "POST" verifyURL (Some body) ;;
      if (200 <=? StatusCode resp)%Z && (StatusCode resp <? 300)%Z then
        ret (ClientID o)
      else
        match json_Decode_ErrorResponse (RespBody resp) with
        | Err err =>
            fail ("failed to decode error response (status: "
                  +:+ fmt_d (StatusCode resp) +:+ "): " +:+ err)
        | Ok errorResp =>
            fail ("failed to verify " +:+ factorType +:+ " (status: "
                  +:+ fmt_d (StatusCode resp) +:+ "): " +:+ ErrorSummary errorResp)
        end
  end.

End Operations.

(** ** The vocabulary of the specification

    The definitions below follow the words of the specification, not the
    code; the theorems relate them to the code above. *)

(** The string held by field [k] of a factor, when the factor is a JSON
    object and the field is a string. *)
Definition factor_field (k : string) (f : any) : option string :=
  match f with
  | any_map m =>
      match m !! k with
      | Some (any_string s) => Some s
      | _ => None
      end
  | _ => None
  end.

(** "The identity's corresponding profile field (email for "email",
    mobile phone for "sms")". *)
Definition profile_field (user : User.t) (factorType : string) : option string :=
  if String.eqb factorType "email" then Some (User.Email (User.Profile user))
  else if String.eqb factorType "sms" then Some (User.MobilePhone (User.Profile user))
  else None.

(** The matching predicate of MatchFactor: provider is "OKTA", the factor
    type is "email" or "sms", the corresponding profile field is
    non-empty, and the identifier equals that field or the identity's ID. *)
Definition qualifies (user : User.t) (identifier : string) (f : any) : bool :=
  match factor_field "provider" f, factor_field "factorType" f with
  | Some provider, Some factorType =>
      String.eqb provider "OKTA"
      && match profile_field user factorType with
         | Some contact =>
             negb (String.eqb contact "")
             && (String.eqb identifier contact || String.eqb identifier (User.ID user))
         | None => false
         end
  | _, _ => false
  end.

(** The first factor, in list order, that satisfies the predicate. *)
Definition first_qualifying (user : User.t) (identifier : string)
    (factors : list any) : option any :=
  List.find (qualifies user identifier) factors.

(** The [(factorID, factorType)] pair read off a factor; a field that is
    absent or not a string reads as [""]. *)
Definition selected (f : any) : string * string :=
  (default "" (factor_field "id" f), default "" (factor_field "factorType" f)).

Definition FactorNotFoundError : error := "email or SMS factor not found for user".

Definition ValidationError : error :=
  "at least one of email or mobilePhone must be provided for registration".

(** "Login defaults to email if present, else mobile phone"; a login the
    caller supplies is kept. *)
Definition login_on_wire (req : RegistrationRequest) : string :=
  if String.eqb (Login (Profile req)) "" then
    if String.eqb (Email (Profile req)) "" then MobilePhone (Profile req)
    else Email (Profile req)
  else Login (Profile req).

(** The [login] field of the profile in a request's JSON payload. *)
Definition payload_login (r : Request) : option JSON :=
  match Body r with
  | Some doc =>
      match JSON_get "profile" doc with
      | Some profile => JSON_get "login" profile
      | None => None
      end
  | None => None
  end.

(** The header a request must carry under key [k]: the three fixed
    headers, and nothing under any other key. *)
Definition fixed_header (token : string) (k : string) : option (list string) :=
  if String.eqb k "Accept" then Some ["application/json"]
  else if String.eqb k "Content-Type" then Some ["application/json"]
  else if String.eqb k "Authorization" then Some ["SSWS " +:+ token]
  else None.

Definition carries_fixed_headers (token : string) (r : Request) : Prop :=
  forall k : string, Header r !! k = fixed_header token k.

Section Traces.
Context `{P : Platform}.

(** Every request a computation hands to the HTTP client satisfies [Q];
    requests sent before it are kept. *)
Definition sends_only {A} (Q : Request -> Prop) (m : M A) : Prop :=
  forall st : State,
    exists new : list Request, sent (snd (m st)) = (sent st ++ new)%list /\ Forall Q new.

(** The URL both flows post to once a factor is selected. *)
Definition verify_url (o : Auth) (user : User.t) (factorID : string) : string :=
  Domain o +:+ "/api/v1/users/" +:+ User.ID user +:+ "/factors/" +:+ factorID +:+ "/verify".

(** The URL [RegisterUser] posts to. *)
Definition register_url (o : Auth) (req : RegistrationRequest) : string :=
  Domain o +:+ "/api/v1/users?activate=" +:+ fmt_t (Activate req).

(** A 2xx status, as the code tests it. *)
Definition is_2xx (status : Z) : Prop := (200 <= status < 300)%Z.

End Traces.

(** ** A scripted platform

    A concrete platform for examples: a response body is given by the
    value it decodes to (decoding at any other target fails), every
    method and URL is accepted, and the world is the script of outcomes
    the HTTP client will return, in order. *)

Inductive scripted_body : Type :=
| body_User (u : User.t)
| body_factors (l : list any)
| body_ErrorResponse (e : ErrorResponse)
| body_VerifyFactorResponse (v : VerifyFactorResponse)
| body_malformed.

Inductive scripted_outcome : Type :=
| answers (status : Z) (body : scripted_body)
| breaks (err : DoError).

Definition scripted_mismatch : error := "json: cannot unmarshal response body".

#[local] Instance scripted : Platform := {|
  RespBody_t := scripted_body;
  World := list scripted_outcome;
  json_Decode_User b :=
    match b with body_User u => Ok u | _ => Err scripted_mismatch end;
  json_Decode_factors b :=
    match b with body_factors l => Ok l | _ => Err scripted_mismatch end;
  json_Decode_ErrorResponse b :=
    match b with body_ErrorResponse e => Ok e | _ => Err scripted_mismatch end;
  json_Decode_VerifyFactorResponse b :=
    match b with body_VerifyFactorResponse v => Ok v | _ => Err scripted_mismatch end;
  http_NewRequest_error _ _ := None
|}.

Definition scripted_client : Client_t (P := scripted) :=
  fun _ w =>
    match w with
    | [] => (DoFail {| do_message := "connection refused"; do_url_timeout := false |}, [])
    | answers status body :: w' => (DoOk {| StatusCode := status; RespBody := body |}, w')
    | breaks err :: w' => (DoFail err, w')
    end.

Definition sc_auth : Auth (P := scripted) :=
  New scripted_client "https://dev.example.com" "tok-secret" "client-1" "s3cret".

Definition sc_state (script : list scripted_outcome) : State (P := scripted) :=
  {| world := script; sent := [] |}.

(** Identity [{id:"u1", profile:{email:"a@x.com"}}]. *)
Definition sc_user : User.t :=
  {| User.ID := "u1"; User.Status := "ACTIVE";
     User.Profile := {| User.Email := "a@x.com"; User.MobilePhone := "" |} |}.

(** Factor [{provider:"OKTA", factorType:"email", id:"f1"}]. *)
Definition sc_factor_f1 : any :=
  any_map (<["provider" := any_string "OKTA"]>
           (<["factorType" := any_string "email"]>
            (<["id" := any_string "f1"]> ∅))).

(** Factor [{provider:"OKTA", factorType:"email"}]: no id. *)
Definition sc_factor_noid : any :=
  any_map (<["provider" := any_string "OKTA"]>
           (<["factorType" := any_string "email"]> ∅)).

(** Factor [{provider:"OKTA", factorType:"email", id:7}]: id not a string. *)
Definition sc_factor_numid : any :=
  any_map (<["provider" := any_string "OKTA"]>
           (<["factorType" := any_string "email"]>
            (<["id" := any_float64 7]> ∅))).

(** Factor [{provider:"GOOGLE", factorType:"email", id:"g1"}]. *)
Definition sc_factor_google : any :=
  any_map (<["provider" := any_string "GOOGLE"]>
           (<["factorType" := any_string "email"]>
            (<["id" := any_string "g1"]> ∅))).

Definition sc_not_found (code : string) : ErrorResponse :=
  {| ErrorCode := code; ErrorSummary := "Not found"; ErrorLink := code;
     ErrorID := "oae1"; ErrorCauses := [] |}.

Definition sc_registration : RegistrationRequest :=
  {| Profile := {| FirstName := "John"; LastName := "Doe";
                   Email := "john.doe@example.com"; MobilePhone := "";
                   Login := "" |};
     Activate := true; SendEmail := true; SendSMS := false |}.

Definition sc_registration_phone : RegistrationRequest :=
  {| Profile := {| FirstName := "John"; LastName := "Doe";
                   Email := ""; MobilePhone := "+15550100";
                   Login := "" |};
     Activate := false; SendEmail := false; SendSMS := true |}.

(** A registration whose email starts with the byte FF, which begins no
    UTF-8 rune. *)
Definition sc_registration_bytes : RegistrationRequest :=
  {| Profile := {| FirstName := "John"; LastName := "Doe";
                   Email := String "255"%char "@x.com"; MobilePhone := "";
                   Login := "" |};
     Activate := true; SendEmail := false; SendSMS := false |}.

Definition sc_registration_empty : RegistrationRequest :=
  {| Profile := {| FirstName := "John"; LastName := "Doe";
                   Email := ""; MobilePhone := ""; Login := "jdoe" |};
     Activate := true; SendEmail := false; SendSMS := false |}.

(** The three answers of a provider to a verification started for
    ["a@x.com"]: the user, the factors, and the answer to the challenge. *)
Definition sc_script (factors : list any) (last : scripted_outcome) : list scripted_outcome :=
  [answers 200 (body_User sc_user); answers 200 (body_factors factors); last].

Definition sc_challenge_accepted : scripted_outcome :=
  answers 202 (body_VerifyFactorResponse {| VFR_Status := ""; SessionToken := "tok123" |}).

(** The states a flow for ["a@x.com"] goes through on a script. *)
Definition sc_after_user (script : list scripted_outcome) : State (P := scripted) :=
  snd (GetUser sc_auth "a@x.com" (sc_state script)).

Definition sc_after_factors (script : list scripted_outcome) : State (P := scripted) :=
  snd (GetUserFactors sc_auth "u1" (sc_after_user script)).

Definition sc_after_verify (script : list scripted_outcome) (body : option JSON) :
    State (P := scripted) :=
  snd (makeRequest sc_auth "POST" (verify_url sc_auth sc_user "f1") body
         (sc_after_factors script)).

Definition sc_passcode_body : JSON :=
  JObject [("passCode", JString "123456"); ("stateToken", JString "")].

(** ** Further vocabulary for the client *)

Section Bounds.
Context `{P : Platform}.

(** A computation hands at most [n] requests to the HTTP client, and
    keeps the requests sent before it. *)
Definition sends_at_most {A} (n : nat) (m : M A) : Prop :=
  forall st : State,
    exists new : list Request,
      sent (snd (m st)) = (sent st ++ new)%list /\ (length new <= n)%nat.

End Bounds.

(** A factor entry that is a JSON object whose ["provider"] is the
    string "OKTA". *)
Definition is_okta_object (f : any) : bool :=
  match f with
  | any_map m =>
      match m !! "provider" with
      | Some (any_string provider) => String.eqb provider "OKTA"
      | _ => false
      end
  | _ => false
  end.

(** Field [k] set to [v] in a factor entry that is a JSON object. *)
Definition add_field (k : string) (v : any) (f : any) : any :=
  match f with
  | any_map m => any_map (<[k := v]> m)
  | _ => f
  end.

(** The [profile] object of a request's JSON payload. *)
Definition payload_profile (r : Request) : option JSON :=
  match Body r with
  | Some doc => JSON_get "profile" doc
  | None => None
  end.

(** Field [k] of a request's JSON payload. *)
Definition payload_field (k : string) (r : Request) : option JSON :=
  match Body r with
  | Some doc => JSON_get k doc
  | None => None
  end.

(** * Package [auth] of [shop/internal/auth/okta.go]

    The two functions over the provider's SDK client. The SDK calls
    [client.UserAPI.CreateUser(ctx).Body(user).Execute()] and
    [client.UserAPI.ListUsers(ctx).Filter(filter).Execute()] are the
    interface [SDK]; the state records every call made. *)

Module Okta.

(** [okta.UserProfile], by the two fields the code sets. *)
Record UserProfile := {
  Email : string;
  MobilePhone : string
}.

(** [okta.User], by the two fields the code uses. *)
Record User := {
  Id : string;
  Profile : UserProfile
}.

Inductive Call : Type :=
| CreateUser (body : User)
| ListUsers (filter : string).

Class SDK := {
  (** the provider's user directory *)
  Directory : Type;
  UserAPI_CreateUser : User -> Directory -> result User * Directory;
  UserAPI_ListUsers : string -> Directory -> result (list User) * Directory
}.

(** The double-quote character of the filter expressions. *)
Definition dquote : string := String "034"%char EmptyString.

Section Functions.
Context `{S : SDK}.

Record State := {
  directory : Directory;
  calls : list Call
}.

Definition RegisterUser (email phoneNumber : string) : State -> result string * State :=
  fun st =>
    let user := {| Id := ""; Profile := {| Email := email; MobilePhone := phoneNumber |} |} in
    let '(r, d) := UserAPI_CreateUser user (directory st) in
    let st' := {| directory := d; calls := (calls st ++ [CreateUser user])%list |} in
    match r with
    | Err err => (Err err, st')
    | Ok createdUser => (Ok (Id createdUser), st')
    end.

(** The [filter] of [ValidateUser], or its error. *)
Definition ValidateUser_filter (email phoneNumber : string) : result string :=
  if negb (String.eqb email "") then
    Ok ("profile.email eq " +:+ dquote +:+ email +:+ dquote)
  else if negb (String.eqb phoneNumber "") then
    Ok ("profile.phoneNumber eq " +:+ dquote +:+ phoneNumber +:+ dquote)
  else Err "either email or phone number must be provided".

Definition ValidateUser (email phoneNumber : string) : State -> result string * State :=
  fun st =>
    match ValidateUser_filter email phoneNumber with
    | Err err => (Err err, st)
    | Ok filter =>
        let '(r, d) := UserAPI_ListUsers filter (directory st) in
        let st' := {| directory := d; calls := (calls st ++ [ListUsers filter])%list |} in
        match r with
        | Err err => (Err err, st')
        | Ok users =>
            match users with
            | [] => (Err "user not found", st')
            | first :: _ => (Ok (Id first), st')
            end
        end
    end.

End Functions.

End Okta.

Arguments Okta.State {S}.

(** ** More scripted material *)

(** Factor [{provider:"OKTA", factorType:"sms", id:"s1"}]. *)
Definition sc_factor_s1 : any :=
  any_map (<["provider" := any_string "OKTA"]>
           (<["factorType" := any_string "sms"]>
            (<["id" := any_string "s1"]> ∅))).

(** Identity [u2] with both an email and a mobile phone. *)
Definition sc_user_both : User.t :=
  {| User.ID := "u2"; User.Status := "ACTIVE";
     User.Profile := {| User.Email := "b@x.com"; User.MobilePhone := "+15550111" |} |}.

(** A platform like [scripted] whose [http.NewRequestWithContext]
    refuses a URL that starts with a colon (no protocol scheme). *)
Definition scripted_parsing : Platform := {|
  RespBody_t := scripted_body;
  World := list scripted_outcome;
  json_Decode_User b :=
    match b with body_User u => Ok u | _ => Err scripted_mismatch end;
  json_Decode_factors b :=
    match b with body_factors l => Ok l | _ => Err scripted_mismatch end;
  json_Decode_ErrorResponse b :=
    match b with body_ErrorResponse e => Ok e | _ => Err scripted_mismatch end;
  json_Decode_VerifyFactorResponse b :=
    match b with body_VerifyFactorResponse v => Ok v | _ => Err scripted_mismatch end;
  http_NewRequest_error _ url :=
    match url with
    | String ":"%char _ => Some "missing protocol scheme"
    | _ => None
    end
|}.

Definition sc_auth_no_scheme : Auth (P := scripted_parsing) :=
  {| Domain := ":"; APIToken := "tok-secret"; ClientID := "client-1";
     ClientSecret := "s3cret";
     HTTPClient := fun _ w => (DoFail {| do_message := "unreachable";
                                         do_url_timeout := false |}, w) |}.

Definition sc_state_no_scheme : State (P := scripted_parsing) :=
  @Build_State scripted_parsing [] [].

(** A directory kept as the list of its users: [CreateUser] gives the
    new user the ID ["00u-new"], [ListUsers] returns the users whose
    email or phone filter expression is the filter. *)
Definition listed : Okta.SDK := {|
  Okta.Directory := list Okta.User;
  Okta.UserAPI_CreateUser u d :=
    let created := {| Okta.Id := "00u-new"; Okta.Profile := Okta.Profile u |} in
    (Ok created, (d ++ [created])%list);
  Okta.UserAPI_ListUsers filter d :=
    (Ok (List.filter
           (fun u =>
              String.eqb filter ("profile.email eq " +:+ Okta.dquote
                                 +:+ Okta.Email (Okta.Profile u) +:+ Okta.dquote)
              || String.eqb filter ("profile.phoneNumber eq " +:+ Okta.dquote
                                    +:+ Okta.MobilePhone (Okta.Profile u) +:+ Okta.dquote))
           d), d)
|}.

Definition sc_directory : list Okta.User :=
  [ {| Okta.Id := "00u1";
       Okta.Profile := {| Okta.Email := "a@x.com"; Okta.MobilePhone := "+15550100" |} |};
    {| Okta.Id := "00u2";
       Okta.Profile := {| Okta.Email := "b@x.com"; Okta.MobilePhone := "+15550111" |} |} ].

Definition sc_okta_state : Okta.State (S := listed) :=
  @Okta.Build_State listed sc_directory [].

(** * Theorems *)

(** ** Factor selection *)

(** Closes a goal [(if c then (id of m, ty) else k) = ...] of the loop
    lemmas by cases on the condition and on the ["id"] entry of [m]. *)
Ltac loop_branch m :=
  try reflexivity;
  match goal with
  | |- (if ?c then _ else _) = _ =>
      destruct c; [ destruct (m !! "id") as [ [ | | | ? | | ] | ]; reflexivity | reflexivity ]
  end.

Section FactorSelection.
Variables (user : User.t) (identifier : string).

(** One iteration of the loop: a qualifying factor ends the scan with the
    pair read off it, any other factor is skipped. *)
Lemma VerifyEmailOrPhone_loop_cons (f : any) (rest : list any) :
  VerifyEmailOrPhone_loop user identifier (f :: rest) =
  if qualifies user identifier f then selected f
  else VerifyEmailOrPhone_loop user identifier rest.
Proof.
  destruct f as [ | b | z | s | l | m ]; try reflexivity.
  cbn [VerifyEmailOrPhone_loop].
  unfold qualifies, selected, factor_field, profile_field.
  destruct (m !! "provider") as [ [ | | | provider | | ] | ]; try reflexivity.
  destruct (String.eqb provider "OKTA"); cbn [negb andb]; try reflexivity.
  - destruct (m !! "factorType") as [ [ | | | fType | | ] | ]; try reflexivity.
    destruct (String.eqb fType "email") eqn:Hemail.
    + apply String.eqb_eq in Hemail; subst fType.
      cbn [andb orb]. change (String.eqb "email" "sms") with false.
      cbn [andb]. rewrite orb_false_r. loop_branch m.
    + cbn [andb orb]. destruct (String.eqb fType "sms"); cbn [andb]; loop_branch m.
  - destruct (m !! "factorType") as [ [ | | | fType | | ] | ]; reflexivity.
Qed.

Lemma VerifyPasscode_loop_cons (f : any) (rest : list any) :
  VerifyPasscode_loop user identifier (f :: rest) =
  if qualifies user identifier f then selected f
  else VerifyPasscode_loop user identifier rest.
Proof.
  destruct f as [ | b | z | s | l | m ]; try reflexivity.
  cbn [VerifyPasscode_loop].
  unfold qualifies, selected, factor_field, profile_field.
  destruct (m !! "provider") as [ [ | | | provider | | ] | ]; try reflexivity.
  destruct (String.eqb provider "OKTA"); cbn [negb andb]; try reflexivity.
  - destruct (m !! "factorType") as [ [ | | | fType | | ] | ]; try reflexivity.
    destruct (String.eqb fType "email") eqn:Hemail.
    + apply String.eqb_eq in Hemail; subst fType.
      cbn [andb orb]. change (String.eqb "email" "sms") with false.
      cbn [andb]. rewrite orb_false_r. loop_branch m.
    + cbn [andb orb]. destruct (String.eqb fType "sms"); cbn [andb]; loop_branch m.
  - destruct (m !! "factorType") as [ [ | | | fType | | ] | ]; reflexivity.
Qed.

(** The loop returns the pair read off the first qualifying factor. *)
Lemma VerifyEmailOrPhone_loop_first (factors : list any) :
  VerifyEmailOrPhone_loop user identifier factors =
  match first_qualifying user identifier factors with
  | Some f => selected f
  | None => ("", "")
  end.
Proof.
  unfold first_qualifying.
  induction factors as [ | f rest IH ]; [ reflexivity | ].
  rewrite VerifyEmailOrPhone_loop_cons. cbn [find].
  destruct (qualifies user identifier f); [ reflexivity | exact IH ].
Qed.

Lemma VerifyPasscode_loop_first (factors : list any) :
  VerifyPasscode_loop user identifier factors =
  match first_qualifying user identifier factors with
  | Some f => selected f
  | None => ("", "")
  end.
Proof.
  unfold first_qualifying.
  induction factors as [ | f rest IH ]; [ reflexivity | ].
  rewrite VerifyPasscode_loop_cons. cbn [find].
  destruct (qualifies user identifier f); [ reflexivity | exact IH ].
Qed.

(** The two loops compute the same pair. *)
Lemma loops_agree (factors : list any) :
  VerifyPasscode_loop user identifier factors =
  VerifyEmailOrPhone_loop user identifier factors.
Proof.
  induction factors as [ | f rest IH ]; [ reflexivity | ].
  rewrite VerifyPasscode_loop_cons, VerifyEmailOrPhone_loop_cons.
  destruct (qualifies user identifier f); [ reflexivity | exact IH ].
Qed.

(** A qualifying factor has provider "OKTA" and type "email" or "sms". *)
Lemma qualifies_fields (f : any) :
  qualifies user identifier f = true ->
  factor_field "provider" f = Some "OKTA"
  /\ exists ty, factor_field "factorType" f = Some ty
                /\ (ty = "email" \/ ty = "sms")
                /\ exists contact, profile_field user ty = Some contact /\ contact <> "".
Proof.
  unfold qualifies.
  destruct (factor_field "provider" f) as [ provider | ]; [ | discriminate ].
  destruct (factor_field "factorType" f) as [ ty | ]; [ | discriminate ].
  intros H. apply andb_true_iff in H as [Hp H].
  apply String.eqb_eq in Hp; subst provider. split; [ reflexivity | ].
  exists ty. split; [ reflexivity | ].
  unfold profile_field in *.
  destruct (String.eqb ty "email") eqn:He.
  - apply String.eqb_eq in He. split; [ now left | ].
    apply andb_true_iff in H as [Hn _]. eexists; split; [ reflexivity | ].
    intros Hc. rewrite Hc in Hn. discriminate.
  - destruct (String.eqb ty "sms") eqn:Hs; [ | discriminate ].
    apply String.eqb_eq in Hs. split; [ now right | ].
    apply andb_true_iff in H as [Hn _]. eexists; split; [ reflexivity | ].
    intros Hc. rewrite Hc in Hn. discriminate.
Qed.

(** No factor qualifies when none has provider "OKTA". *)
Lemma first_qualifying_no_okta (factors : list any) :
  Forall (fun f => factor_field "provider" f <> Some "OKTA") factors ->
  first_qualifying user identifier factors = None.
Proof.
  unfold first_qualifying.
  induction 1 as [ | f rest Hf _ IH ]; [ reflexivity | ].
  cbn [find]. destruct (qualifies user identifier f) eqn:Hq; [ | exact IH ].
  apply qualifies_fields in Hq as [Hp _]. contradiction.
Qed.

(** No factor qualifies when the profile field of every factor's type is
    empty. *)
Lemma first_qualifying_no_contact (factors : list any) :
  Forall (fun f => forall ty contact,
            factor_field "factorType" f = Some ty ->
            profile_field user ty = Some contact -> contact = "") factors ->
  first_qualifying user identifier factors = None.
Proof.
  unfold first_qualifying.
  induction 1 as [ | f rest Hf _ IH ]; [ reflexivity | ].
  cbn [find]. destruct (qualifies user identifier f) eqn:Hq; [ | exact IH ].
  apply qualifies_fields in Hq as (_ & ty & Hty & _ & contact & Hc & Hne).
  exfalso. apply Hne. exact (Hf ty contact Hty Hc).
Qed.

(** The outcome of the selection in terms of the first qualifying factor. *)
Lemma VerifyEmailOrPhone_factor_first (factors : list any) :
  VerifyEmailOrPhone_factor user identifier factors =
  match first_qualifying user identifier factors with
  | Some f =>
      match factor_field "id" f, factor_field "factorType" f with
      | Some factorID, Some factorType =>
          if String.eqb factorID "" then Err FactorNotFoundError
          else Ok (factorID, factorType)
      | _, _ => Err FactorNotFoundError
      end
  | None => Err FactorNotFoundError
  end.
Proof.
  unfold VerifyEmailOrPhone_factor. rewrite VerifyEmailOrPhone_loop_first.
  destruct (first_qualifying user identifier factors) as [ f | ] eqn:Hfirst;
    [ | reflexivity ].
  apply find_some in Hfirst as [_ Hq].
  apply qualifies_fields in Hq as (_ & ty & Hty & _).
  unfold selected. rewrite Hty.
  destruct (factor_field "id" f) as [ factorID | ]; reflexivity.
Qed.

End FactorSelection.

(** C7: the factor-matching loop of VerifyEmailOrPhone and the one of
    VerifyPasscode are equivalent: for every identity, factor list and
    identifier they compute the same (factorID, factorType) pair, give the
    same outcome of the selection, and fail with factor-not-found in
    exactly the same cases. *)
Theorem factor_matching_loops_equivalent
    (user : User.t) (identifier : string) (factors : list any) :
  VerifyEmailOrPhone_loop user identifier factors
  = VerifyPasscode_loop user identifier factors
  /\ VerifyEmailOrPhone_factor user identifier factors
     = VerifyPasscode_factor user identifier factors
  /\ (VerifyEmailOrPhone_factor user identifier factors = Err FactorNotFoundError
      <-> VerifyPasscode_factor user identifier factors = Err FactorNotFoundError).
Proof.
  assert (Hfactor : VerifyEmailOrPhone_factor user identifier factors
                    = VerifyPasscode_factor user identifier factors).
  { unfold VerifyEmailOrPhone_factor, VerifyPasscode_factor.
    generalize (loops_agree user identifier factors).
    generalize (VerifyPasscode_loop user identifier factors)
               (VerifyEmailOrPhone_loop user identifier factors).
    intros passcode_pair challenge_pair Hpair. subst passcode_pair. reflexivity. }
  split; [ symmetry; apply loops_agree | ].
  split; [ exact Hfactor | ].
  split; intros H; [ rewrite <- Hfactor | rewrite Hfactor ]; exact H.
Qed.

(** ** The two verification flows up to the selection *)

Section Flows.
Context `{P : Platform}.

Lemma bind_Ok {A B} (m : M A) (k : A -> M B) (st st' : State) (a : A) :
  m st = (Ok a, st') -> bind m k st = k a st'.
Proof. intros H. unfold bind. rewrite H. reflexivity. Qed.

Lemma bind_Err {A B} (m : M A) (k : A -> M B) (st st' : State) (e : error) :
  m st = (Err e, st') -> bind m k st = (Err e, st').
Proof. intros H. unfold bind. rewrite H. reflexivity. Qed.

(** A failed selection ends VerifyEmailOrPhone: nothing more is sent. *)
Lemma VerifyEmailOrPhone_selection_fails (o : Auth) (identifier : string)
    (user : User.t) (factors : list any) (st st1 st2 : State) (e : error) :
  GetUser o identifier st = (Ok user, st1) ->
  GetUserFactors o (User.ID user) st1 = (Ok factors, st2) ->
  VerifyEmailOrPhone_factor user identifier factors = Err e ->
  VerifyEmailOrPhone o identifier st = (Err e, st2).
Proof.
  intros Huser Hfactors Hsel. unfold VerifyEmailOrPhone.
  rewrite (bind_Ok _ _ _ _ _ Huser), (bind_Ok _ _ _ _ _ Hfactors).
  apply bind_Err. unfold lift. rewrite Hsel. reflexivity.
Qed.

Lemma VerifyPasscode_selection_fails (o : Auth) (identifier passcode : string)
    (user : User.t) (factors : list any) (st st1 st2 : State) (e : error) :
  GetUser o identifier st = (Ok user, st1) ->
  GetUserFactors o (User.ID user) st1 = (Ok factors, st2) ->
  VerifyPasscode_factor user identifier factors = Err e ->
  VerifyPasscode o identifier passcode st = (Err e, st2).
Proof.
  intros Huser Hfactors Hsel. unfold VerifyPasscode.
  rewrite (bind_Ok _ _ _ _ _ Huser), (bind_Ok _ _ _ _ _ Hfactors).
  apply bind_Err. unfold lift. rewrite Hsel. reflexivity.
Qed.

(** Past a successful selection, VerifyEmailOrPhone is the challenge
    request and the reading of its response. *)
Lemma VerifyEmailOrPhone_selected (o : Auth) (identifier : string)
    (user : User.t) (factors : list any) (st st1 st2 st3 : State)
    (factorID factorType : string) (resp : Response) :
  GetUser o identifier st = (Ok user, st1) ->
  GetUserFactors o (User.ID user) st1 = (Ok factors, st2) ->
  VerifyEmailOrPhone_factor user identifier factors = Ok (factorID, factorType) ->
  makeRequest o "POST" (verify_url o user factorID) None st2 = (Ok resp, st3) ->
  VerifyEmailOrPhone o identifier st =
  (if negb (StatusCode resp =? 200)%Z && negb (StatusCode resp =? 202)%Z then
     match json_Decode_ErrorResponse (RespBody resp) with
     | Err err =>
         Err ("failed to decode error response (status: "
              +:+ fmt_d (StatusCode resp) +:+ "): " +:+ err)
     | Ok errorResp =>
         Err ("failed to trigger " +:+ factorType +:+ " verification (status: "
              +:+ fmt_d (StatusCode resp) +:+ "): " +:+ ErrorSummary errorResp)
     end
   else
     match json_Decode_VerifyFactorResponse (RespBody resp) with
     | Err err => Err ("failed to decode verification response: " +:+ err)
     | Ok verifyResponse => Ok (SessionToken verifyResponse)
     end, st3).
Proof.
  intros Huser Hfactors Hsel Hreq. unfold VerifyEmailOrPhone.
  rewrite (bind_Ok _ _ _ _ _ Huser), (bind_Ok _ _ _ _ _ Hfactors).
  erewrite bind_Ok; [ | unfold lift; rewrite Hsel; reflexivity ].
  cbn [fst snd]. fold (verify_url o user factorID).
  rewrite (bind_Ok _ _ _ _ _ Hreq).
  destruct (negb (StatusCode resp =? 200)%Z && negb (StatusCode resp =? 202)%Z).
  - destruct (json_Decode_ErrorResponse (RespBody resp)); reflexivity.
  - destruct (json_Decode_VerifyFactorResponse (RespBody resp)); reflexivity.
Qed.

(** Past a successful selection, VerifyPasscode is the verify request,
    carrying the passcode, and the reading of its response. *)
Lemma VerifyPasscode_selected (o : Auth) (identifier passcode : string)
    (user : User.t) (factors : list any) (st st1 st2 st3 : State)
    (factorID factorType : string) (body : JSON) (resp : Response) :
  GetUser o identifier st = (Ok user, st1) ->
  GetUserFactors o (User.ID user) st1 = (Ok factors, st2) ->
  VerifyPasscode_factor user identifier factors = Ok (factorID, factorType) ->
  json_Marshal_VerifyFactorRequest {| PassCode := passcode; StateToken := "" |} = Ok body ->
  makeRequest o "POST" (verify_url o user factorID) (Some body) st2 = (Ok resp, st3) ->
  VerifyPasscode o identifier passcode st =
  (if (200 <=? StatusCode resp)%Z && (StatusCode resp <? 300)%Z then Ok (ClientID o)
   else
     match json_Decode_ErrorResponse (RespBody resp) with
     | Err err =>
         Err ("failed to decode error response (status: "
              +:+ fmt_d (StatusCode resp) +:+ "): " +:+ err)
     | Ok errorResp =>
         Err ("failed to verify " +:+ factorType +:+ " (status: "
              +:+ fmt_d (StatusCode resp) +:+ "): " +:+ ErrorSummary errorResp)
     end, st3).
Proof.
  intros Huser Hfactors Hsel Hbody Hreq. unfold VerifyPasscode.
  rewrite (bind_Ok _ _ _ _ _ Huser), (bind_Ok _ _ _ _ _ Hfactors).
  erewrite bind_Ok; [ | unfold lift; rewrite Hsel; reflexivity ].
  cbn [fst snd]. rewrite Hbody.
  fold (verify_url o user factorID).
  rewrite (bind_Ok _ _ _ _ _ Hreq).
  destruct ((200 <=? StatusCode resp)%Z && (StatusCode resp <? 300)%Z);
    [ reflexivity | ].
  destruct (json_Decode_ErrorResponse (RespBody resp)); reflexivity.
Qed.

End Flows.

(** The selection of VerifyPasscode, by the same first qualifying factor. *)
Lemma VerifyPasscode_factor_first
    (user : User.t) (identifier : string) (factors : list any) :
  VerifyPasscode_factor user identifier factors =
  match first_qualifying user identifier factors with
  | Some f =>
      match factor_field "id" f, factor_field "factorType" f with
      | Some factorID, Some factorType =>
          if String.eqb factorID "" then Err FactorNotFoundError
          else Ok (factorID, factorType)
      | _, _ => Err FactorNotFoundError
      end
  | None => Err FactorNotFoundError
  end.
Proof.
  rewrite <- VerifyEmailOrPhone_factor_first.
  unfold VerifyEmailOrPhone_factor, VerifyPasscode_factor.
  generalize (loops_agree user identifier factors).
  generalize (VerifyPasscode_loop user identifier factors)
             (VerifyEmailOrPhone_loop user identifier factors).
  intros passcode_pair challenge_pair Hpair. subst passcode_pair. reflexivity.
Qed.

Section Selection.
Context `{P : Platform}.

(** C1, as amended: in both flows the selection stops at the first factor,
    in list order, with provider "OKTA", type "email" or "sms", a
    non-empty corresponding profile field, and the identifier equal to
    that field or to the identity's ID. It returns that factor's id and
    type when the id is a non-empty string; it fails with the
    factor-not-found error when that id is absent, not a string or empty,
    and when no factor qualifies: in particular for the empty list, when
    no factor has provider "OKTA", and when the profile field of every
    factor's type is empty. A failed selection ends the operation with
    that error. *)
Theorem factor_selection_first_qualifying
    (o : Auth) (identifier passcode : string) (user : User.t) (factors : list any)
    (st st1 st2 : State) :
  let outcome :=
    match first_qualifying user identifier factors with
    | Some f =>
        match factor_field "id" f, factor_field "factorType" f with
        | Some factorID, Some factorType =>
            if String.eqb factorID "" then Err FactorNotFoundError
            else Ok (factorID, factorType)
        | _, _ => Err FactorNotFoundError
        end
    | None => Err FactorNotFoundError
    end in
  VerifyEmailOrPhone_factor user identifier factors = outcome
  /\ VerifyPasscode_factor user identifier factors = outcome
  /\ (factors = [] -> outcome = Err FactorNotFoundError)
  /\ (Forall (fun f => factor_field "provider" f <> Some "OKTA") factors ->
      outcome = Err FactorNotFoundError)
  /\ (Forall (fun f => forall ty contact,
                factor_field "factorType" f = Some ty ->
                profile_field user ty = Some contact -> contact = "") factors ->
      outcome = Err FactorNotFoundError)
  /\ (GetUser o identifier st = (Ok user, st1) ->
      GetUserFactors o (User.ID user) st1 = (Ok factors, st2) ->
      outcome = Err FactorNotFoundError ->
      VerifyEmailOrPhone o identifier st = (Err FactorNotFoundError, st2)
      /\ VerifyPasscode o identifier passcode st = (Err FactorNotFoundError, st2)).
Proof.
  intros outcome. subst outcome.
  rewrite <- (VerifyEmailOrPhone_factor_first user identifier factors).
  split; [ reflexivity | ].
  split; [ rewrite VerifyPasscode_factor_first;
           symmetry; apply VerifyEmailOrPhone_factor_first | ].
  split; [ intros ->; reflexivity | ].
  split.
  { intros Hall. rewrite VerifyEmailOrPhone_factor_first.
    rewrite (first_qualifying_no_okta user identifier factors Hall). reflexivity. }
  split.
  { intros Hall. rewrite VerifyEmailOrPhone_factor_first.
    rewrite (first_qualifying_no_contact user identifier factors Hall). reflexivity. }
  intros Huser Hfactors Hsel. split.
  - exact (VerifyEmailOrPhone_selection_fails o identifier user factors st st1 st2 _
             Huser Hfactors Hsel).
  - apply (VerifyPasscode_selection_fails o identifier passcode user factors st st1 st2 _
             Huser Hfactors).
    rewrite VerifyPasscode_factor_first.
    rewrite <- VerifyEmailOrPhone_factor_first. exact Hsel.
Qed.

(** C9: in both flows, when the first factor that satisfies the matching
    predicate has an "id" that is absent or not a string, the scan stops
    at that factor with an empty factor ID, and the operation fails with
    the factor-not-found error without sending anything more, whatever
    factors follow it in the list. *)
Theorem scan_stops_at_first_qualifying_factor
    (o : Auth) (identifier passcode : string) (user : User.t) (factors : list any)
    (f : any) (st st1 st2 : State) :
  first_qualifying user identifier factors = Some f ->
  factor_field "id" f = None ->
  fst (VerifyEmailOrPhone_loop user identifier factors) = ""
  /\ fst (VerifyPasscode_loop user identifier factors) = ""
  /\ Some (snd (VerifyEmailOrPhone_loop user identifier factors))
     = factor_field "factorType" f
  /\ Some (snd (VerifyPasscode_loop user identifier factors))
     = factor_field "factorType" f
  /\ (GetUser o identifier st = (Ok user, st1) ->
      GetUserFactors o (User.ID user) st1 = (Ok factors, st2) ->
      VerifyEmailOrPhone o identifier st = (Err FactorNotFoundError, st2)
      /\ VerifyPasscode o identifier passcode st = (Err FactorNotFoundError, st2)).
Proof.
  intros Hfirst Hid.
  assert (Hty : exists ty, factor_field "factorType" f = Some ty).
  { apply find_some in Hfirst as [_ Hq].
    apply qualifies_fields in Hq as (_ & ty & Hty & _). eauto. }
  destruct Hty as [ty Hty].
  rewrite VerifyPasscode_loop_first, VerifyEmailOrPhone_loop_first, Hfirst.
  unfold selected. rewrite Hid, Hty. cbn [fst snd default].
  repeat (split; [ reflexivity | ]).
  intros Huser Hfactors. split.
  - apply (VerifyEmailOrPhone_selection_fails o identifier user factors st st1 st2 _
             Huser Hfactors).
    rewrite VerifyEmailOrPhone_factor_first, Hfirst, Hid. reflexivity.
  - apply (VerifyPasscode_selection_fails o identifier passcode user factors st st1 st2 _
             Huser Hfactors).
    rewrite VerifyPasscode_factor_first, Hfirst, Hid. reflexivity.
Qed.

End Selection.

(** ** Requests handed to the HTTP client *)

Section Requests.
Context `{P : Platform}.

Lemma sends_only_ret {A} (Q : Request -> Prop) (a : A) : sends_only Q (ret a).
Proof. intros st. exists []. cbn. rewrite app_nil_r. auto. Qed.

Lemma sends_only_fail {A} (Q : Request -> Prop) (e : error) :
  sends_only Q (fail (A := A) e).
Proof. intros st. exists []. cbn. rewrite app_nil_r. auto. Qed.

Lemma sends_only_lift {A} (Q : Request -> Prop) (r : result A) : sends_only Q (lift r).
Proof. intros st. exists []. cbn. rewrite app_nil_r. auto. Qed.

Lemma sends_only_bind {A B} (Q : Request -> Prop) (m : M A) (k : A -> M B) :
  sends_only Q m -> (forall a, sends_only Q (k a)) -> sends_only Q (bind m k).
Proof.
  intros Hm Hk st. unfold bind.
  destruct (Hm st) as (new1 & Hsent1 & HQ1).
  destruct (m st) as [ [ a | e ] st' ]; cbn [snd] in Hsent1.
  - destruct (Hk a st') as (new2 & Hsent2 & HQ2).
    exists (new1 ++ new2)%list. split.
    + rewrite Hsent2, Hsent1, app_assoc. reflexivity.
    + apply Forall_app. auto.
  - exists new1. auto.
Qed.

(** The header after the three [Header.Set] calls of [makeRequest]. *)
Lemma three_headers_set (token : string) (req : Request) :
  Header req = ∅ ->
  carries_fixed_headers token
    (Header_Set "Authorization" ("SSWS " +:+ token)
       (Header_Set "Content-Type" "application/json"
          (Header_Set "Accept" "application/json" req))).
Proof.
  intros Hempty k. cbn [Header_Set Header]. rewrite Hempty. unfold fixed_header.
  destruct (String.eqb_spec k "Accept") as [ -> | Haccept ].
  { rewrite !lookup_insert_ne by discriminate. apply lookup_insert_eq. }
  destruct (String.eqb_spec k "Content-Type") as [ -> | Hcontent ].
  { rewrite lookup_insert_ne by discriminate. apply lookup_insert_eq. }
  destruct (String.eqb_spec k "Authorization") as [ -> | Hauth ].
  { apply lookup_insert_eq. }
  rewrite !lookup_insert_ne by congruence. apply lookup_empty.
Qed.

(** What [makeRequest] does to the state: nothing when the request
    cannot be built, and otherwise one round trip with the request
    built from its arguments and the three headers. *)
Lemma makeRequest_sent (o : Auth) (method urlStr : string) (body : option JSON)
    (st : State) :
  match http_NewRequest_error method urlStr with
  | Some _ => snd (makeRequest o method urlStr body st) = st
  | None =>
      exists r, sent (snd (makeRequest o method urlStr body st)) = (sent st ++ [r])%list
                /\ Method r = method /\ URL r = urlStr /\ Body r = body
                /\ carries_fixed_headers (APIToken o) r
  end.
Proof.
  unfold makeRequest, http_NewRequestWithContext.
  destruct (http_NewRequest_error method urlStr) as [ err | ]; [ reflexivity | ].
  unfold HTTPClient_Do.
  match goal with
  | |- context [HTTPClient o ?r (world st)] =>
      exists r; destruct (HTTPClient o r (world st)) as [ [ resp | err ] w ]
  end.
  - cbn. repeat (split; [ reflexivity | ]). now apply three_headers_set.
  - destruct (do_url_timeout err);
      cbn; repeat (split; [ reflexivity | ]); now apply three_headers_set.
Qed.

Lemma makeRequest_sends_only (o : Auth) (method urlStr : string) (body : option JSON) :
  sends_only (carries_fixed_headers (APIToken o)) (makeRequest o method urlStr body).
Proof.
  intros st. pose proof (makeRequest_sent o method urlStr body st) as H.
  destruct (http_NewRequest_error method urlStr).
  - exists []. rewrite H, app_nil_r. auto.
  - destruct H as (r & Hsent & _ & _ & _ & Hheaders). exists [r]. auto.
Qed.

End Requests.

(** Walks through the code of an operation, one [bind], branch or return
    at a time, down to its [makeRequest] calls. *)
Ltac sends_only_steps :=
  repeat first
    [ apply sends_only_ret
    | apply sends_only_fail
    | apply sends_only_lift
    | apply makeRequest_sends_only
    | apply sends_only_bind; [ | intros ? ]
    | match goal with
      | |- sends_only _ (if ?c then _ else _) => destruct c
      | |- sends_only _ (match ?x with _ => _ end) => destruct x
      end ].

Section OperationsRequests.
Context `{P : Platform}.
Variable o : Auth.

Lemma RegisterUser_sends_only (req : RegistrationRequest) :
  sends_only (carries_fixed_headers (APIToken o)) (RegisterUser o req).
Proof. unfold RegisterUser, json_Marshal_RegistrationRequest. sends_only_steps. Qed.

Lemma GetUser_sends_only (identifier : string) :
  sends_only (carries_fixed_headers (APIToken o)) (GetUser o identifier).
Proof. unfold GetUser. sends_only_steps. Qed.

Lemma GetUserFactors_sends_only (userID : string) :
  sends_only (carries_fixed_headers (APIToken o)) (GetUserFactors o userID).
Proof. unfold GetUserFactors. sends_only_steps. Qed.

Lemma VerifyEmailOrPhone_sends_only (identifier : string) :
  sends_only (carries_fixed_headers (APIToken o)) (VerifyEmailOrPhone o identifier).
Proof.
  unfold VerifyEmailOrPhone.
  apply sends_only_bind; [ apply GetUser_sends_only | intros user ].
  apply sends_only_bind; [ apply GetUserFactors_sends_only | intros factors ].
  sends_only_steps.
Qed.

Lemma VerifyPasscode_sends_only (identifier passcode : string) :
  sends_only (carries_fixed_headers (APIToken o)) (VerifyPasscode o identifier passcode).
Proof.
  unfold VerifyPasscode, json_Marshal_VerifyFactorRequest.
  apply sends_only_bind; [ apply GetUser_sends_only | intros user ].
  apply sends_only_bind; [ apply GetUserFactors_sends_only | intros factors ].
  sends_only_steps.
Qed.

(** C8: every request the client hands to its HTTP client, for every
    method, URL and body passed through makeRequest and hence in every
    public operation, carries exactly the three fixed headers
    Accept: application/json, Content-Type: application/json and
    Authorization: SSWS <the configured API token>, and no other. *)
Theorem every_request_carries_fixed_headers :
  (forall method urlStr body,
     sends_only (carries_fixed_headers (APIToken o)) (makeRequest o method urlStr body))
  /\ (forall method urlStr body st,
        http_NewRequest_error method urlStr = None ->
        exists r,
          sent (snd (makeRequest o method urlStr body st)) = (sent st ++ [r])%list
          /\ Method r = method /\ URL r = urlStr /\ Body r = body
          /\ carries_fixed_headers (APIToken o) r)
  /\ (forall req,
        sends_only (carries_fixed_headers (APIToken o)) (RegisterUser o req))
  /\ (forall identifier,
        sends_only (carries_fixed_headers (APIToken o)) (GetUser o identifier))
  /\ (forall userID,
        sends_only (carries_fixed_headers (APIToken o)) (GetUserFactors o userID))
  /\ (forall identifier,
        sends_only (carries_fixed_headers (APIToken o)) (VerifyEmailOrPhone o identifier))
  /\ (forall identifier passcode,
        sends_only (carries_fixed_headers (APIToken o))
          (VerifyPasscode o identifier passcode)).
Proof.
  split; [ apply makeRequest_sends_only | ].
  split.
  { intros method urlStr body st Hbuilt.
    pose proof (makeRequest_sent o method urlStr body st) as H.
    rewrite Hbuilt in H. exact H. }
  split; [ apply RegisterUser_sends_only | ].
  split; [ apply GetUser_sends_only | ].
  split; [ apply GetUserFactors_sends_only | ].
  split; [ apply VerifyEmailOrPhone_sends_only | apply VerifyPasscode_sends_only ].
Qed.

End OperationsRequests.

(** ** Strings in the JSON payloads *)

(** A string that is valid UTF-8 is written as it is. *)
Lemma json_string_valid_bounded (n : nat) (s : string) :
  (String.length s <= n)%nat -> utf8_valid s = true -> json_string s = s.
Proof.
  revert s. induction n as [ | n IH ]; intros s Hlen Hvalid.
  - destruct s; [ reflexivity | cbn in Hlen; lia ].
  - destruct s as [ | b0 r ]; [ reflexivity | ].
    cbn [utf8_valid json_string] in *. cbn [String.length] in Hlen.
    destruct (utf8_width (String b0 r)) as [ | [ | [ | [ | [ | w ] ] ] ] ].
    + destruct r; discriminate.
    + rewrite IH; [ reflexivity | lia | ].
      destruct r; exact Hvalid.
    + destruct r as [ | b1 r1 ]; [ discriminate | ].
      cbn [String.length] in Hlen. rewrite IH; [ reflexivity | lia | exact Hvalid ].
    + destruct r as [ | b1 [ | b2 r2 ] ]; try discriminate.
      cbn [String.length] in Hlen. rewrite IH; [ reflexivity | lia | exact Hvalid ].
    + destruct r as [ | b1 [ | b2 [ | b3 r3 ] ] ]; try discriminate.
      cbn [String.length] in Hlen. rewrite IH; [ reflexivity | lia | exact Hvalid ].
    + destruct r; discriminate.
Qed.

Lemma json_string_valid (s : string) : utf8_valid s = true -> json_string s = s.
Proof. apply (json_string_valid_bounded (String.length s)). lia. Qed.

(** A non-empty string is never written as the empty string. *)
Lemma json_string_nonempty (s : string) : s <> "" -> json_string s <> "".
Proof.
  destruct s as [ | b0 r ]; [ contradiction | ]. intros _.
  cbn [json_string].
  destruct (utf8_width (String b0 r)) as [ | [ | [ | [ | [ | w ] ] ] ] ];
    destruct r as [ | b1 [ | b2 [ | b3 r3 ] ] ]; discriminate.
Qed.

(** ** Registration *)

Section Registration.
Context `{P : Platform}.
Variable o : Auth.

Lemma RegisterUser_login_Activate (req : RegistrationRequest) :
  Activate (RegisterUser_login req) = Activate req.
Proof.
  unfold RegisterUser_login.
  destruct (String.eqb (Login (Profile req)) ""); [ | reflexivity ].
  destruct (negb (String.eqb (Email (Profile req)) "")); reflexivity.
Qed.

(** The defaulting block computes the login of the specification. *)
Lemma RegisterUser_login_on_wire (req : RegistrationRequest) :
  Login (Profile (RegisterUser_login req)) = login_on_wire req.
Proof.
  unfold RegisterUser_login, login_on_wire.
  destruct (String.eqb (Login (Profile req)) ""); [ | reflexivity ].
  destruct (String.eqb (Email (Profile req)) ""); reflexivity.
Qed.

(** The marshalled profile always has its [login] field, after the
    optional [email] and [mobilePhone] fields. *)
Lemma json_Marshal_UserProfile_login (p : UserProfile) :
  JSON_get "login" (json_Marshal_UserProfile p) = Some (JString (json_string (Login p))).
Proof.
  unfold json_Marshal_UserProfile, omitempty.
  destruct (String.eqb (Email p) ""), (String.eqb (MobilePhone p) ""); reflexivity.
Qed.

(** With an email or a phone, [RegisterUser] is one [makeRequest], with
    the marshalled request as body, and the reading of its response. *)
Lemma RegisterUser_valid (req : RegistrationRequest) (body : JSON) (st : State) :
  Email (Profile req) <> "" \/ MobilePhone (Profile req) <> "" ->
  json_Marshal_RegistrationRequest (RegisterUser_login req) = Ok body ->
  RegisterUser o req st =
  bind (makeRequest o "POST" (register_url o req) (Some body))
       (fun resp =>
          if (200 <=? StatusCode resp)%Z && (StatusCode resp <? 300)%Z then
            match json_Decode_User (RespBody resp) with
            | Err err => fail ("failed to decode user response: " +:+ err)
            | Ok user => ret (ClientID o)
            end
          else
            match json_Decode_ErrorResponse (RespBody resp) with
            | Err err =>
                fail ("failed to decode error response (status: "
                      +:+ fmt_d (StatusCode resp) +:+ "): " +:+ err)
            | Ok errorResp =>
                fail ("failed to register user (status: "
                      +:+ fmt_d (StatusCode resp) +:+ "): " +:+ ErrorSummary errorResp)
            end) st.
Proof.
  intros Hcontact Hbody. unfold RegisterUser, register_url.
  assert (Hvalid : String.eqb (Email (Profile req)) ""
                   && String.eqb (MobilePhone (Profile req)) "" = false).
  { apply andb_false_iff. destruct Hcontact as [ H | H ];
      [ left | right ]; now apply String.eqb_neq. }
  rewrite Hvalid. cbn zeta. rewrite Hbody, RegisterUser_login_Activate. reflexivity.
Qed.

(** Reading the response sends nothing: the state after [RegisterUser]
    is the state after its [makeRequest]. *)
Lemma RegisterUser_state (req : RegistrationRequest) (body : JSON) (st : State) :
  Email (Profile req) <> "" \/ MobilePhone (Profile req) <> "" ->
  json_Marshal_RegistrationRequest (RegisterUser_login req) = Ok body ->
  snd (RegisterUser o req st) =
  snd (makeRequest o "POST" (register_url o req) (Some body) st).
Proof.
  intros Hcontact Hbody. rewrite (RegisterUser_valid req body st Hcontact Hbody).
  unfold bind.
  destruct (makeRequest o "POST" (register_url o req) (Some body) st)
    as [ [ resp | e ] st' ]; [ | reflexivity ].
  destruct ((200 <=? StatusCode resp)%Z && (StatusCode resp <? 300)%Z);
    [ destruct (json_Decode_User (RespBody resp))
    | destruct (json_Decode_ErrorResponse (RespBody resp)) ]; reflexivity.
Qed.

(** C4: for every registration request whose email and mobile phone are
    both empty, RegisterUser fails with the validation error and leaves
    the state as it was: no request is handed to the HTTP client and the
    world is not touched. *)
Theorem RegisterUser_rejects_missing_contact (req : RegistrationRequest) (st : State) :
  Email (Profile req) = "" ->
  MobilePhone (Profile req) = "" ->
  RegisterUser o req st = (Err ValidationError, st)
  /\ sent (snd (RegisterUser o req st)) = sent st
  /\ world (snd (RegisterUser o req st)) = world st.
Proof.
  intros Hemail Hphone.
  assert (H : RegisterUser o req st = (Err ValidationError, st)).
  { unfold RegisterUser. rewrite Hemail, Hphone. reflexivity. }
  rewrite H. auto.
Qed.

(** C6, as amended: for every registration request with a non-empty
    email or mobile phone, every request RegisterUser hands to the HTTP
    client (exactly one when the request can be built) has in its JSON
    payload, under profile.login, the caller's login when one is
    supplied, and otherwise the email when the email is non-empty, and
    otherwise the mobile phone, as encoding/json writes that string: the
    string itself when it is valid UTF-8, and with every byte that starts
    no well-formed rune replaced by U+FFFD otherwise. *)
Theorem RegisterUser_login_sent (req : RegistrationRequest) (st : State) :
  Email (Profile req) <> "" \/ MobilePhone (Profile req) <> "" ->
  (exists new : list Request,
      sent (snd (RegisterUser o req st)) = (sent st ++ new)%list
      /\ Forall (fun r => payload_login r
                          = Some (JString (json_string (login_on_wire req)))) new
      /\ (http_NewRequest_error "POST" (register_url o req) = None -> length new = 1%nat))
  /\ (utf8_valid (login_on_wire req) = true ->
      json_string (login_on_wire req) = login_on_wire req)
  /\ (Login (Profile req) = "" -> Email (Profile req) <> "" ->
      login_on_wire req = Email (Profile req))
  /\ (Login (Profile req) = "" -> Email (Profile req) = "" ->
      login_on_wire req = MobilePhone (Profile req))
  /\ (Login (Profile req) <> "" -> login_on_wire req = Login (Profile req)).
Proof.
  intros Hcontact. split.
  - rewrite (RegisterUser_state req _ st Hcontact eq_refl).
    match goal with
    | |- context [makeRequest o "POST" ?u ?b st] =>
        pose proof (makeRequest_sent o "POST" u b st) as Hsent
    end.
    destruct (http_NewRequest_error "POST" (register_url o req)).
    + exists []. rewrite Hsent, app_nil_r. split; [ reflexivity | ].
      split; [ constructor | discriminate ].
    + destruct Hsent as (r & Hsent & _ & _ & Hbody & _).
      exists [r]. split; [ exact Hsent | ]. split; [ | reflexivity ].
      constructor; [ | constructor ].
      unfold payload_login. rewrite Hbody. cbn [JSON_get JSON_fields_get].
      change (String.eqb "profile" "profile") with true. cbn iota.
      rewrite json_Marshal_UserProfile_login, RegisterUser_login_on_wire.
      reflexivity.
  - split; [ apply json_string_valid | ]. unfold login_on_wire. repeat split.
    + intros -> Hemail. apply String.eqb_neq in Hemail. rewrite Hemail. reflexivity.
    + intros -> ->. reflexivity.
    + intros Hlogin. apply String.eqb_neq in Hlogin. rewrite Hlogin. reflexivity.
Qed.

End Registration.

(** ** Reading the provider's responses *)

Section Responses.
Context `{P : Platform}.
Variable o : Auth.

Lemma is_2xx_test (status : Z) :
  is_2xx status -> (200 <=? status)%Z && (status <? 300)%Z = true.
Proof.
  intros [Hlow Hhigh]. apply andb_true_intro.
  split; [ now apply Z.leb_le | now apply Z.ltb_lt ].
Qed.

Lemma not_2xx_test (status : Z) :
  ~ is_2xx status -> (200 <=? status)%Z && (status <? 300)%Z = false.
Proof.
  intros Hnot. destruct ((200 <=? status)%Z && (status <? 300)%Z) eqn:Htest;
    [ | reflexivity ].
  exfalso. apply Hnot. apply andb_true_iff in Htest as [Hlow Hhigh].
  split; [ now apply Z.leb_le | now apply Z.ltb_lt ].
Qed.

(** Whatever [RegisterUser] returns on success is the configured client ID. *)
Lemma RegisterUser_Ok (req : RegistrationRequest) (st st' : State) (v : string) :
  RegisterUser o req st = (Ok v, st') -> v = ClientID o.
Proof.
  unfold RegisterUser, bind, fail, ret.
  destruct (String.eqb (Email (Profile req)) ""
            && String.eqb (MobilePhone (Profile req)) ""); [ discriminate | ].
  cbn zeta. cbn [json_Marshal_RegistrationRequest].
  match goal with
  | |- context [makeRequest o "POST" ?u ?b st] =>
      destruct (makeRequest o "POST" u b st) as [ [ resp | e ] st1 ]
  end; [ | discriminate ].
  destruct ((200 <=? StatusCode resp)%Z && (StatusCode resp <? 300)%Z);
    [ destruct (json_Decode_User (RespBody resp))
    | destruct (json_Decode_ErrorResponse (RespBody resp)) ];
    intros H; inversion H; reflexivity.
Qed.

(** Whatever [VerifyPasscode] returns on success is the configured client ID. *)
Lemma VerifyPasscode_Ok (identifier passcode : string) (st st' : State) (v : string) :
  VerifyPasscode o identifier passcode st = (Ok v, st') -> v = ClientID o.
Proof.
  unfold VerifyPasscode, bind, fail, ret, lift.
  destruct (GetUser o identifier st) as [ [ user | e ] st1 ]; [ | discriminate ].
  destruct (GetUserFactors o (User.ID user) st1) as [ [ factors | e ] st2 ];
    [ | discriminate ].
  destruct (VerifyPasscode_factor user identifier factors) as [ found | e ];
    [ | discriminate ].
  cbn zeta. cbn [json_Marshal_VerifyFactorRequest].
  match goal with
  | |- context [makeRequest o "POST" ?u ?b st2] =>
      destruct (makeRequest o "POST" u b st2) as [ [ resp | e ] st3 ]
  end; [ | discriminate ].
  destruct ((200 <=? StatusCode resp)%Z && (StatusCode resp <? 300)%Z).
  - intros H; inversion H; reflexivity.
  - destruct (json_Decode_ErrorResponse (RespBody resp)); discriminate.
Qed.

(** C2, as amended: on every 2xx response whose body decodes as a user,
    RegisterUser returns the client ID the caller configured (the
    ClientID field of the Auth struct), whatever ID the provider assigned
    to the identity; on a 2xx response whose body does not decode it
    fails with a decode error. On every 2xx response to the
    passcode-verify call, VerifyPasscode returns the configured client
    ID. Every successful call of either returns that same value, so it is
    the same across repeated calls. *)
Theorem success_returns_configured_ClientID :
  (forall req body st resp st',
      Email (Profile req) <> "" \/ MobilePhone (Profile req) <> "" ->
      json_Marshal_RegistrationRequest (RegisterUser_login req) = Ok body ->
      makeRequest o "POST" (register_url o req) (Some body) st = (Ok resp, st') ->
      is_2xx (StatusCode resp) ->
      RegisterUser o req st =
      (match json_Decode_User (RespBody resp) with
       | Ok user => Ok (ClientID o)
       | Err err => Err ("failed to decode user response: " +:+ err)
       end, st'))
  /\ (forall identifier passcode user factors st st1 st2 st3 factorID factorType
             body resp,
        GetUser o identifier st = (Ok user, st1) ->
        GetUserFactors o (User.ID user) st1 = (Ok factors, st2) ->
        VerifyPasscode_factor user identifier factors = Ok (factorID, factorType) ->
        json_Marshal_VerifyFactorRequest {| PassCode := passcode; StateToken := "" |}
        = Ok body ->
        makeRequest o "POST" (verify_url o user factorID) (Some body) st2
        = (Ok resp, st3) ->
        is_2xx (StatusCode resp) ->
        VerifyPasscode o identifier passcode st = (Ok (ClientID o), st3))
  /\ (forall req st v st', RegisterUser o req st = (Ok v, st') -> v = ClientID o)
  /\ (forall identifier passcode st v st',
        VerifyPasscode o identifier passcode st = (Ok v, st') -> v = ClientID o)
  /\ (forall req1 req2 st1 st2 v1 v2 st1' st2',
        RegisterUser o req1 st1 = (Ok v1, st1') ->
        RegisterUser o req2 st2 = (Ok v2, st2') -> v1 = v2)
  /\ (forall id1 id2 pass1 pass2 st1 st2 v1 v2 st1' st2',
        VerifyPasscode o id1 pass1 st1 = (Ok v1, st1') ->
        VerifyPasscode o id2 pass2 st2 = (Ok v2, st2') -> v1 = v2).
Proof.
  split.
  { intros req body st resp st' Hcontact Hbody Hreq Hstatus.
    rewrite (RegisterUser_valid o req body st Hcontact Hbody).
    rewrite (bind_Ok _ _ _ _ _ Hreq), (is_2xx_test _ Hstatus).
    destruct (json_Decode_User (RespBody resp)); reflexivity. }
  split.
  { intros identifier passcode user factors st st1 st2 st3 factorID factorType
           body resp Huser Hfactors Hsel Hbody Hreq Hstatus.
    rewrite (VerifyPasscode_selected o identifier passcode user factors st st1 st2 st3
               factorID factorType body resp Huser Hfactors Hsel Hbody Hreq).
    rewrite (is_2xx_test _ Hstatus). reflexivity. }
  split; [ intros req st v st'; apply RegisterUser_Ok | ].
  split; [ intros identifier passcode st v st'; apply VerifyPasscode_Ok | ].
  split.
  - intros req1 req2 st1 st2 v1 v2 st1' st2' H1 H2.
    apply RegisterUser_Ok in H1, H2. congruence.
  - intros id1 id2 pass1 pass2 st1 st2 v1 v2 st1' st2' H1 H2.
    apply VerifyPasscode_Ok in H1, H2. congruence.
Qed.

(** C5, as amended: GetUser returns the decoded user exactly when the
    provider answers HTTP 200 with a body that decodes as a user. On any
    other status it always fails: when the body decodes as an
    ErrorResponse, with the error "failed to get user (status: <status>):
    <errorSummary>", which carries the HTTP status and the provider's
    error summary and not the provider's error code; the same shape of
    error for every non-200 status, a 404 included. A body that does not
    decode gives a decode error. *)
Theorem GetUser_reads_response
    (identifier : string) (st st' : State) (resp : Response) :
  makeRequest o "GET" (Domain o +:+ "/api/v1/users/" +:+ identifier) None st
  = (Ok resp, st') ->
  (StatusCode resp = 200%Z ->
   GetUser o identifier st =
   (match json_Decode_User (RespBody resp) with
    | Ok user => Ok user
    | Err err => Err ("failed to decode user response: " +:+ err)
    end, st'))
  /\ (StatusCode resp <> 200%Z ->
      is_Err (fst (GetUser o identifier st))
      /\ GetUser o identifier st =
         (match json_Decode_ErrorResponse (RespBody resp) with
          | Ok errorResp =>
              Err ("failed to get user (status: " +:+ fmt_d (StatusCode resp)
                   +:+ "): " +:+ ErrorSummary errorResp)
          | Err err =>
              Err ("failed to decode error response (status: "
                   +:+ fmt_d (StatusCode resp) +:+ "): " +:+ err)
          end, st'))
  /\ (forall user st'',
        GetUser o identifier st = (Ok user, st'') ->
        StatusCode resp = 200%Z /\ json_Decode_User (RespBody resp) = Ok user).
Proof.
  intros Hreq. unfold GetUser. rewrite (bind_Ok _ _ _ _ _ Hreq).
  split; [ | split ].
  - intros Hstatus. rewrite Hstatus. cbn [Z.eqb Pos.eqb].
    destruct (json_Decode_User (RespBody resp)); reflexivity.
  - intros Hstatus. apply Z.eqb_neq in Hstatus. rewrite Hstatus.
    destruct (json_Decode_ErrorResponse (RespBody resp)); split;
      solve [ exact I | reflexivity ].
  - intros user st''. destruct (StatusCode resp =? 200)%Z eqn:Hstatus.
    + apply Z.eqb_eq in Hstatus.
      destruct (json_Decode_User (RespBody resp)); [ | discriminate ].
      intros H; inversion H; subst. auto.
    + destruct (json_Decode_ErrorResponse (RespBody resp)); discriminate.
Qed.

(** C3, as amended: VerifyEmailOrPhone treats exactly HTTP 200 and HTTP
    202 as acceptable answers to the challenge request. On 200 or 202 it
    decodes the body and, when the body decodes, returns its sessionToken
    without error; a body that does not decode gives a decode error. On
    any other status it always fails: when the body decodes as an
    ErrorResponse, with a provider error that carries the factor type, the
    status and the error summary, and otherwise with a decode error that
    carries the status. *)
Theorem VerifyEmailOrPhone_reads_challenge_response
    (identifier : string) (user : User.t) (factors : list any)
    (st st1 st2 st3 : State) (factorID factorType : string) (resp : Response) :
  GetUser o identifier st = (Ok user, st1) ->
  GetUserFactors o (User.ID user) st1 = (Ok factors, st2) ->
  VerifyEmailOrPhone_factor user identifier factors = Ok (factorID, factorType) ->
  makeRequest o "POST" (verify_url o user factorID) None st2 = (Ok resp, st3) ->
  (StatusCode resp = 200%Z \/ StatusCode resp = 202%Z ->
   VerifyEmailOrPhone o identifier st =
   (match json_Decode_VerifyFactorResponse (RespBody resp) with
    | Ok verifyResponse => Ok (SessionToken verifyResponse)
    | Err err => Err ("failed to decode verification response: " +:+ err)
    end, st3))
  /\ (StatusCode resp <> 200%Z -> StatusCode resp <> 202%Z ->
      is_Err (fst (VerifyEmailOrPhone o identifier st))
      /\ VerifyEmailOrPhone o identifier st =
         (match json_Decode_ErrorResponse (RespBody resp) with
          | Ok errorResp =>
              Err ("failed to trigger " +:+ factorType +:+ " verification (status: "
                   +:+ fmt_d (StatusCode resp) +:+ "): " +:+ ErrorSummary errorResp)
          | Err err =>
              Err ("failed to decode error response (status: "
                   +:+ fmt_d (StatusCode resp) +:+ "): " +:+ err)
          end, st3)).
Proof.
  intros Huser Hfactors Hsel Hreq.
  rewrite (VerifyEmailOrPhone_selected o identifier user factors st st1 st2 st3
             factorID factorType resp Huser Hfactors Hsel Hreq).
  split.
  - intros [ Hstatus | Hstatus ]; rewrite Hstatus; cbn [Z.eqb Pos.eqb negb andb];
      destruct (json_Decode_VerifyFactorResponse (RespBody resp)); reflexivity.
  - intros H200 H202. apply Z.eqb_neq in H200, H202. rewrite H200, H202.
    cbn [negb andb].
    destruct (json_Decode_ErrorResponse (RespBody resp)); split;
      solve [ exact I | reflexivity ].
Qed.

(** C10: on any 2xx status of the passcode-verify response, VerifyPasscode
    returns the client ID without error whatever the response body is and
    whatever the JSON decoder would make of it; the body is decoded, as
    an ErrorResponse, only on a non-2xx status. *)
Theorem VerifyPasscode_ignores_body_on_2xx
    (identifier passcode : string) (user : User.t) (factors : list any)
    (st st1 st2 st3 : State) (factorID factorType : string) (body : JSON)
    (status : Z) (respBody : RespBody_t) :
  GetUser o identifier st = (Ok user, st1) ->
  GetUserFactors o (User.ID user) st1 = (Ok factors, st2) ->
  VerifyPasscode_factor user identifier factors = Ok (factorID, factorType) ->
  json_Marshal_VerifyFactorRequest {| PassCode := passcode; StateToken := "" |}
  = Ok body ->
  makeRequest o "POST" (verify_url o user factorID) (Some body) st2
  = (Ok {| StatusCode := status; RespBody := respBody |}, st3) ->
  (is_2xx status ->
   VerifyPasscode o identifier passcode st = (Ok (ClientID o), st3))
  /\ (~ is_2xx status ->
      VerifyPasscode o identifier passcode st =
      (match json_Decode_ErrorResponse respBody with
       | Ok errorResp =>
           Err ("failed to verify " +:+ factorType +:+ " (status: "
                +:+ fmt_d status +:+ "): " +:+ ErrorSummary errorResp)
       | Err err =>
           Err ("failed to decode error response (status: "
                +:+ fmt_d status +:+ "): " +:+ err)
       end, st3)).
Proof.
  intros Huser Hfactors Hsel Hbody Hreq.
  rewrite (VerifyPasscode_selected o identifier passcode user factors st st1 st2 st3
             factorID factorType body _ Huser Hfactors Hsel Hbody Hreq).
  cbn [StatusCode RespBody]. split.
  - intros Hstatus. rewrite (is_2xx_test _ Hstatus). reflexivity.
  - intros Hstatus. rewrite (not_2xx_test _ Hstatus).
    destruct (json_Decode_ErrorResponse respBody); reflexivity.
Qed.

End Responses.

(** * The theorems on a scripted provider *)

(** Scenario of the specification: identity [u1] with email ["a@x.com"],
    one OKTA email factor [f1], identifier ["a@x.com"]. *)
Example match_scenario :
  VerifyEmailOrPhone_factor sc_user "a@x.com" [sc_factor_f1] = Ok ("f1", "email")
  /\ VerifyPasscode_factor sc_user "a@x.com" [sc_factor_f1] = Ok ("f1", "email").
Proof. split; reflexivity. Qed.

(** The selection on [google; f1] picks [f1]; on [google] alone, where
    no factor has provider "OKTA", it fails. *)
Lemma factor_selection_first_qualifying_witness :
  VerifyEmailOrPhone_factor sc_user "a@x.com" [sc_factor_google; sc_factor_f1]
  = Ok ("f1", "email")
  /\ VerifyPasscode_factor sc_user "a@x.com" [sc_factor_google] = Err FactorNotFoundError.
Proof.
  split.
  - exact (proj1 (factor_selection_first_qualifying sc_auth "a@x.com" "123456" sc_user
                    [sc_factor_google; sc_factor_f1]
                    (sc_state []) (sc_state []) (sc_state []))).
  - pose proof (factor_selection_first_qualifying sc_auth "a@x.com" "123456" sc_user
                  [sc_factor_google] (sc_state []) (sc_state []) (sc_state []))
      as (_ & Hpasscode & _ & Hokta & _).
    rewrite Hpasscode. apply Hokta.
    constructor; [ discriminate | constructor ].
Defined.

(** C1 as stated fails: the first factor of [noid; f1] satisfies the
    matching predicate, and the selection does not return it (nor [f1]):
    both flows fail with the factor-not-found error. *)
Lemma factor_selection_counterexample :
  qualifies sc_user "a@x.com" sc_factor_noid = true
  /\ first_qualifying sc_user "a@x.com" [sc_factor_noid; sc_factor_f1]
     = Some sc_factor_noid
  /\ VerifyEmailOrPhone_factor sc_user "a@x.com" [sc_factor_noid; sc_factor_f1]
     = Err FactorNotFoundError
  /\ VerifyPasscode_factor sc_user "a@x.com" [sc_factor_noid; sc_factor_f1]
     = Err FactorNotFoundError
  /\ fst (VerifyEmailOrPhone sc_auth "a@x.com"
            (sc_state (sc_script [sc_factor_noid; sc_factor_f1] sc_challenge_accepted)))
     = Err FactorNotFoundError
  /\ fst (VerifyPasscode sc_auth "a@x.com" "123456"
            (sc_state (sc_script [sc_factor_noid; sc_factor_f1] (answers 200 body_malformed))))
     = Err FactorNotFoundError.
Proof. repeat split; vm_compute; reflexivity. Qed.

(** On [google; numid; f1] the first qualifying factor is [numid], whose
    id is a number: both flows fail although [f1] follows. *)
Lemma scan_stops_at_first_qualifying_factor_witness :
  VerifyEmailOrPhone sc_auth "a@x.com"
    (sc_state (sc_script [sc_factor_google; sc_factor_numid; sc_factor_f1]
                 sc_challenge_accepted))
  = (Err FactorNotFoundError,
     sc_after_factors (sc_script [sc_factor_google; sc_factor_numid; sc_factor_f1]
                         sc_challenge_accepted))
  /\ VerifyPasscode sc_auth "a@x.com" "123456"
       (sc_state (sc_script [sc_factor_google; sc_factor_numid; sc_factor_f1]
                    sc_challenge_accepted))
     = (Err FactorNotFoundError,
        sc_after_factors (sc_script [sc_factor_google; sc_factor_numid; sc_factor_f1]
                            sc_challenge_accepted)).
Proof.
  apply (scan_stops_at_first_qualifying_factor sc_auth "a@x.com" "123456" sc_user
           [sc_factor_google; sc_factor_numid; sc_factor_f1] sc_factor_numid
           (sc_state (sc_script [sc_factor_google; sc_factor_numid; sc_factor_f1]
                        sc_challenge_accepted))
           (sc_after_user (sc_script [sc_factor_google; sc_factor_numid; sc_factor_f1]
                             sc_challenge_accepted))
           (sc_after_factors (sc_script [sc_factor_google; sc_factor_numid; sc_factor_f1]
                                sc_challenge_accepted)));
    vm_compute; reflexivity.
Defined.

(** A registration with neither email nor phone fails before anything
    is sent, although the script has an answer ready. *)
Lemma RegisterUser_rejects_missing_contact_witness :
  RegisterUser sc_auth sc_registration_empty (sc_state [answers 201 (body_User sc_user)])
  = (Err ValidationError, sc_state [answers 201 (body_User sc_user)])
  /\ sent (snd (RegisterUser sc_auth sc_registration_empty
                  (sc_state [answers 201 (body_User sc_user)]))) = []
  /\ world (snd (RegisterUser sc_auth sc_registration_empty
                   (sc_state [answers 201 (body_User sc_user)])))
     = [answers 201 (body_User sc_user)].
Proof.
  exact (RegisterUser_rejects_missing_contact sc_auth sc_registration_empty
           (sc_state [answers 201 (body_User sc_user)]) eq_refl eq_refl).
Defined.

(** With an email and no login, the one request sent has the email as
    login; with a phone only, the phone. *)
Lemma RegisterUser_login_sent_witness :
  (exists new : list Request,
      sent (snd (RegisterUser sc_auth sc_registration
                   (sc_state [answers 201 (body_User sc_user)]))) = new
      /\ Forall (fun r => payload_login r = Some (JString "john.doe@example.com")) new
      /\ length new = 1%nat)
  /\ (exists new : list Request,
         sent (snd (RegisterUser sc_auth sc_registration_phone
                      (sc_state [answers 201 (body_User sc_user)]))) = new
         /\ Forall (fun r => payload_login r = Some (JString "+15550100")) new
         /\ length new = 1%nat).
Proof.
  split.
  - assert (Hcontact : Email (Profile sc_registration) <> ""
                       \/ MobilePhone (Profile sc_registration) <> "")
      by (left; discriminate).
    pose proof (RegisterUser_login_sent sc_auth sc_registration
                  (sc_state [answers 201 (body_User sc_user)]) Hcontact) as H.
    destruct H as (H & _). destruct H as (new & Hsent & Hlogin & Hone).
    exists new. split; [ exact Hsent | ]. split; [ exact Hlogin | exact (Hone eq_refl) ].
  - assert (Hcontact : Email (Profile sc_registration_phone) <> ""
                       \/ MobilePhone (Profile sc_registration_phone) <> "")
      by (right; discriminate).
    pose proof (RegisterUser_login_sent sc_auth sc_registration_phone
                  (sc_state [answers 201 (body_User sc_user)]) Hcontact) as H.
    destruct H as (H & _). destruct H as (new & Hsent & Hlogin & Hone).
    exists new. split; [ exact Hsent | ]. split; [ exact Hlogin | exact (Hone eq_refl) ].
Defined.

(** C6 as stated fails: for the email FF "@x.com" and no login, the
    login of the one request sent is U+FFFD "@x.com" (the bytes EF BF BD
    for the byte FF), which is not the email. *)
Lemma RegisterUser_login_counterexample :
  Login (Profile sc_registration_bytes) = ""
  /\ Email (Profile sc_registration_bytes) = String "255"%char "@x.com"
  /\ List.map payload_login
       (sent (snd (RegisterUser sc_auth sc_registration_bytes
                     (sc_state [answers 201 (body_User sc_user)]))))
     = [Some (JString (String "239"%char
                         (String "191"%char (String "189"%char "@x.com"))))]
  /\ String "239"%char (String "191"%char (String "189"%char "@x.com"))
     <> Email (Profile sc_registration_bytes).
Proof.
  split; [ reflexivity | ]. split; [ reflexivity | ].
  split; [ vm_compute; reflexivity | discriminate ].
Qed.

(** The request of a user lookup carries the three headers, with the
    configured token. *)
Lemma every_request_carries_fixed_headers_witness :
  exists r : Request,
    sent (snd (makeRequest sc_auth "GET" "https://dev.example.com/api/v1/users/u1" None
                 (sc_state [answers 200 (body_User sc_user)]))) = [r]
    /\ Header r !! "Accept" = Some ["application/json"]
    /\ Header r !! "Content-Type" = Some ["application/json"]
    /\ Header r !! "Authorization" = Some ["SSWS tok-secret"]
    /\ Header r !! "User-Agent" = None.
Proof.
  pose proof (proj1 (proj2 (every_request_carries_fixed_headers sc_auth))
                "GET" "https://dev.example.com/api/v1/users/u1" None
                (sc_state [answers 200 (body_User sc_user)]) eq_refl) as H.
  destruct H as (r & Hsent & _ & _ & _ & Hheaders).
  exists r. split; [ exact Hsent | ].
  repeat split; apply Hheaders.
Defined.

(** A registration answered 201 with a user whose provider ID is [u1]
    returns the configured ["client-1"]; so does a passcode verification
    answered 200. *)
Lemma success_returns_configured_ClientID_witness :
  RegisterUser sc_auth sc_registration (sc_state [answers 201 (body_User sc_user)])
  = (Ok "client-1",
     snd (makeRequest sc_auth "POST" (register_url sc_auth sc_registration)
            (Some (JObject [("profile",
                             json_Marshal_UserProfile
                               (Profile (RegisterUser_login sc_registration)));
                            ("activate", JBool true);
                            ("sendEmail", JBool true);
                            ("sendSMS", JBool false)]))
            (sc_state [answers 201 (body_User sc_user)])))
  /\ VerifyPasscode sc_auth "a@x.com" "123456"
       (sc_state (sc_script [sc_factor_f1] (answers 200 body_malformed)))
     = (Ok "client-1",
        sc_after_verify (sc_script [sc_factor_f1] (answers 200 body_malformed))
          (Some sc_passcode_body)).
Proof.
  split.
  - refine (proj1 (success_returns_configured_ClientID sc_auth)
              sc_registration _ (sc_state [answers 201 (body_User sc_user)])
              {| StatusCode := 201; RespBody := body_User sc_user |} _
              (or_introl _) eq_refl _ _).
    + discriminate.
    + vm_compute; reflexivity.
    + unfold is_2xx; cbn; lia.
  - refine (proj1 (proj2 (success_returns_configured_ClientID sc_auth))
              "a@x.com" "123456" sc_user [sc_factor_f1]
              (sc_state (sc_script [sc_factor_f1] (answers 200 body_malformed)))
              (sc_after_user (sc_script [sc_factor_f1] (answers 200 body_malformed)))
              (sc_after_factors (sc_script [sc_factor_f1] (answers 200 body_malformed)))
              _ "f1" "email" sc_passcode_body
              {| StatusCode := 200; RespBody := body_malformed |}
              _ _ _ eq_refl _ _).
    + vm_compute; reflexivity.
    + vm_compute; reflexivity.
    + vm_compute; reflexivity.
    + vm_compute; reflexivity.
    + unfold is_2xx; cbn; lia.
Defined.

(** C2 as stated fails for RegisterUser: a 201 response whose body does
    not decode makes it fail, where VerifyPasscode succeeds. *)
Lemma RegisterUser_2xx_counterexample :
  fst (RegisterUser sc_auth sc_registration (sc_state [answers 201 body_malformed]))
  = Err "failed to decode user response: json: cannot unmarshal response body".
Proof. vm_compute. reflexivity. Qed.

(** Scenario of the specification: a user lookup answered 404 with
    [{errorCode:"E0000007", errorSummary:"Not found"}]. *)
Lemma GetUser_reads_response_witness :
  GetUser sc_auth "nobody"
    (sc_state [answers 404 (body_ErrorResponse (sc_not_found "E0000007"))])
  = (Err "failed to get user (status: 404): Not found",
     snd (makeRequest sc_auth "GET" "https://dev.example.com/api/v1/users/nobody" None
            (sc_state [answers 404 (body_ErrorResponse (sc_not_found "E0000007"))]))).
Proof.
  pose proof (GetUser_reads_response sc_auth "nobody"
                (sc_state [answers 404 (body_ErrorResponse (sc_not_found "E0000007"))])
                (snd (makeRequest sc_auth "GET"
                        "https://dev.example.com/api/v1/users/nobody" None
                        (sc_state [answers 404
                                     (body_ErrorResponse (sc_not_found "E0000007"))])))
                {| StatusCode := 404;
                   RespBody := body_ErrorResponse (sc_not_found "E0000007") |}) as H.
  assert (Hreq : makeRequest sc_auth "GET"
                   (Domain sc_auth +:+ "/api/v1/users/" +:+ "nobody") None
                   (sc_state [answers 404 (body_ErrorResponse (sc_not_found "E0000007"))])
                 = (Ok {| StatusCode := 404;
                          RespBody := body_ErrorResponse (sc_not_found "E0000007") |},
                    snd (makeRequest sc_auth "GET"
                           "https://dev.example.com/api/v1/users/nobody" None
                           (sc_state [answers 404
                                        (body_ErrorResponse (sc_not_found "E0000007"))]))))
    by (vm_compute; reflexivity).
  specialize (H Hreq). destruct H as (_ & Hother & _).
  assert (Hstatus : StatusCode {| StatusCode := 404;
                                  RespBody := body_ErrorResponse (sc_not_found "E0000007") |}
                    <> 200%Z) by discriminate.
  destruct (Hother Hstatus) as (_ & Herror). exact Herror.
Defined.

(** C5 as stated fails: the error of a lookup answered 404 is the same
    text for the provider codes E0000007 and E0000008, so it does not
    carry the code; and a 200 answer whose body does not decode returns
    no identity. *)
Lemma GetUser_counterexample :
  ErrorCode (sc_not_found "E0000007") <> ErrorCode (sc_not_found "E0000008")
  /\ fst (GetUser sc_auth "nobody"
            (sc_state [answers 404 (body_ErrorResponse (sc_not_found "E0000007"))]))
     = Err "failed to get user (status: 404): Not found"
  /\ fst (GetUser sc_auth "nobody"
            (sc_state [answers 404 (body_ErrorResponse (sc_not_found "E0000008"))]))
     = Err "failed to get user (status: 404): Not found"
  /\ fst (GetUser sc_auth "u1" (sc_state [answers 200 body_malformed]))
     = Err "failed to decode user response: json: cannot unmarshal response body".
Proof.
  split; [ discriminate | ].
  repeat split; vm_compute; reflexivity.
Qed.

(** Scenario of the specification: a verification started for
    ["a@x.com"], the challenge answered 202 with
    [{sessionToken:"tok123"}]. *)
Lemma VerifyEmailOrPhone_reads_challenge_response_witness :
  VerifyEmailOrPhone sc_auth "a@x.com"
    (sc_state (sc_script [sc_factor_google; sc_factor_f1] sc_challenge_accepted))
  = (Ok "tok123",
     sc_after_verify (sc_script [sc_factor_google; sc_factor_f1] sc_challenge_accepted)
       None).
Proof.
  pose proof (VerifyEmailOrPhone_reads_challenge_response sc_auth "a@x.com" sc_user
                [sc_factor_google; sc_factor_f1]
                (sc_state (sc_script [sc_factor_google; sc_factor_f1]
                             sc_challenge_accepted))
                (sc_after_user (sc_script [sc_factor_google; sc_factor_f1]
                                  sc_challenge_accepted))
                (sc_after_factors (sc_script [sc_factor_google; sc_factor_f1]
                                     sc_challenge_accepted))
                (sc_after_verify (sc_script [sc_factor_google; sc_factor_f1]
                                    sc_challenge_accepted) None)
                "f1" "email"
                {| StatusCode := 202;
                   RespBody := body_VerifyFactorResponse
                                 {| VFR_Status := ""; SessionToken := "tok123" |} |}) as H.
  assert (Huser : GetUser sc_auth "a@x.com"
                    (sc_state (sc_script [sc_factor_google; sc_factor_f1]
                                 sc_challenge_accepted))
                  = (Ok sc_user,
                     sc_after_user (sc_script [sc_factor_google; sc_factor_f1]
                                      sc_challenge_accepted)))
    by (vm_compute; reflexivity).
  assert (Hfactors : GetUserFactors sc_auth (User.ID sc_user)
                       (sc_after_user (sc_script [sc_factor_google; sc_factor_f1]
                                         sc_challenge_accepted))
                     = (Ok [sc_factor_google; sc_factor_f1],
                        sc_after_factors (sc_script [sc_factor_google; sc_factor_f1]
                                            sc_challenge_accepted)))
    by (vm_compute; reflexivity).
  assert (Hsel : VerifyEmailOrPhone_factor sc_user "a@x.com"
                   [sc_factor_google; sc_factor_f1] = Ok ("f1", "email"))
    by (vm_compute; reflexivity).
  assert (Hreq : makeRequest sc_auth "POST" (verify_url sc_auth sc_user "f1") None
                   (sc_after_factors (sc_script [sc_factor_google; sc_factor_f1]
                                        sc_challenge_accepted))
                 = (Ok {| StatusCode := 202;
                          RespBody := body_VerifyFactorResponse
                                        {| VFR_Status := "";
                                           SessionToken := "tok123" |} |},
                    sc_after_verify (sc_script [sc_factor_google; sc_factor_f1]
                                       sc_challenge_accepted) None))
    by (vm_compute; reflexivity).
  destruct (H Huser Hfactors Hsel Hreq) as (Haccepted & _).
  exact (Haccepted (or_intror eq_refl)).
Defined.

(** C3 as stated fails: a challenge answered 200 with a body that does
    not decode ends in an error, and one answered 500 with such a body
    ends in an error that does not name the factor type. *)
Lemma VerifyEmailOrPhone_counterexample :
  fst (VerifyEmailOrPhone sc_auth "a@x.com"
         (sc_state (sc_script [sc_factor_f1] (answers 200 body_malformed))))
  = Err "failed to decode verification response: json: cannot unmarshal response body"
  /\ fst (VerifyEmailOrPhone sc_auth "a@x.com"
            (sc_state (sc_script [sc_factor_f1] (answers 500 body_malformed))))
     = Err "failed to decode error response (status: 500): json: cannot unmarshal response body".
Proof. split; vm_compute; reflexivity. Qed.

(** A passcode verification answered 204 with a body no decoder accepts
    succeeds; answered 403 with an ErrorResponse it fails. *)
Lemma VerifyPasscode_ignores_body_on_2xx_witness :
  VerifyPasscode sc_auth "a@x.com" "123456"
    (sc_state (sc_script [sc_factor_f1] (answers 204 body_malformed)))
  = (Ok "client-1",
     sc_after_verify (sc_script [sc_factor_f1] (answers 204 body_malformed))
       (Some sc_passcode_body)).
Proof.
  pose proof (VerifyPasscode_ignores_body_on_2xx sc_auth "a@x.com" "123456" sc_user
                [sc_factor_f1]
                (sc_state (sc_script [sc_factor_f1] (answers 204 body_malformed)))
                (sc_after_user (sc_script [sc_factor_f1] (answers 204 body_malformed)))
                (sc_after_factors (sc_script [sc_factor_f1] (answers 204 body_malformed)))
                (sc_after_verify (sc_script [sc_factor_f1] (answers 204 body_malformed))
                   (Some sc_passcode_body))
                "f1" "email" sc_passcode_body 204 body_malformed) as H.
  assert (Huser : GetUser sc_auth "a@x.com"
                    (sc_state (sc_script [sc_factor_f1] (answers 204 body_malformed)))
                  = (Ok sc_user,
                     sc_after_user (sc_script [sc_factor_f1] (answers 204 body_malformed))))
    by (vm_compute; reflexivity).
  assert (Hfactors : GetUserFactors sc_auth (User.ID sc_user)
                       (sc_after_user (sc_script [sc_factor_f1]
                                         (answers 204 body_malformed)))
                     = (Ok [sc_factor_f1],
                        sc_after_factors (sc_script [sc_factor_f1]
                                            (answers 204 body_malformed))))
    by (vm_compute; reflexivity).
  assert (Hsel : VerifyPasscode_factor sc_user "a@x.com" [sc_factor_f1]
                 = Ok ("f1", "email"))
    by (vm_compute; reflexivity).
  assert (Hreq : makeRequest sc_auth "POST" (verify_url sc_auth sc_user "f1")
                   (Some sc_passcode_body)
                   (sc_after_factors (sc_script [sc_factor_f1]
                                        (answers 204 body_malformed)))
                 = (Ok {| StatusCode := 204; RespBody := body_malformed |},
                    sc_after_verify (sc_script [sc_factor_f1]
                                       (answers 204 body_malformed))
                      (Some sc_passcode_body)))
    by (vm_compute; reflexivity).
  destruct (H Huser Hfactors Hsel eq_refl Hreq) as (Hsuccess & _).
  apply Hsuccess. unfold is_2xx. lia.
Defined.

(** * Further properties of the client *)

Section Transport.
Context `{P : Platform}.
Variable o : Auth.

(** X3: [makeRequest] fails in three ways and no other. A request that
    cannot be built gives "failed to create request: ..." and leaves the
    state alone. A request that is built is handed to the HTTP client
    once, with the three headers; a failure of the round trip gives
    "request timed out: ..." when it is a timeout of a [url.Error] and
    "request failed: ..." otherwise, and the client's response is
    returned as it is. *)
Theorem makeRequest_outcomes (method urlStr : string) (body : option JSON) (st : State) :
  (forall err,
      http_NewRequest_error method urlStr = Some err ->
      makeRequest o method urlStr body st
      = (Err ("failed to create request: " +:+ err), st))
  /\ (http_NewRequest_error method urlStr = None ->
      exists req,
        Method req = method /\ URL req = urlStr /\ Body req = body
        /\ carries_fixed_headers (APIToken o) req
        /\ makeRequest o method urlStr body st
           = (match fst (HTTPClient o req (world st)) with
              | DoOk resp => Ok resp
              | DoFail err =>
                  Err ((if do_url_timeout err then "request timed out: "
                        else "request failed: ") +:+ do_message err)
              end,
              {| world := snd (HTTPClient o req (world st));
                 sent := (sent st ++ [req])%list |})).
Proof.
  unfold makeRequest, http_NewRequestWithContext. split.
  - intros err Herr. rewrite Herr. reflexivity.
  - intros Hbuilt. rewrite Hbuilt. unfold HTTPClient_Do.
    match goal with
    | |- context [HTTPClient o ?r (world st)] =>
        exists r; destruct (HTTPClient o r (world st)) as [ [ resp | err ] w ]
    end.
    + cbn. repeat (split; [ reflexivity | ]).
      split; [ now apply three_headers_set | reflexivity ].
    + cbn. repeat (split; [ reflexivity | ]).
      split; [ now apply three_headers_set | ].
      destruct (do_url_timeout err); reflexivity.
Qed.

(** A successful [makeRequest] has sent exactly the request asked for. *)
Lemma makeRequest_Ok_sent (method urlStr : string) (body : option JSON)
    (st st' : State) (resp : Response) :
  makeRequest o method urlStr body st = (Ok resp, st') ->
  exists r, sent st' = (sent st ++ [r])%list
            /\ Method r = method /\ URL r = urlStr /\ Body r = body.
Proof.
  intros Hok. pose proof (makeRequest_sent o method urlStr body st) as Hsent.
  destruct (http_NewRequest_error method urlStr) eqn:Hbuilt.
  - exfalso. unfold makeRequest, http_NewRequestWithContext in Hok.
    rewrite Hbuilt in Hok. discriminate.
  - rewrite Hok in Hsent. destruct Hsent as (r & Hr & Hm & Hu & Hb & _). eauto.
Qed.

(** X1: GetUserFactors returns the decoded list exactly when the provider
    answers HTTP 200 with a body that decodes; a 200 body that does not
    decode gives "failed to decode factors response". On any other status
    it always fails, with "failed to get user factors (status: N):
    <errorSummary>" when the body decodes as an ErrorResponse. Reading the
    response sends nothing more. *)
Theorem GetUserFactors_reads_response
    (userID : string) (st st' : State) (resp : Response) :
  makeRequest o "GET" (Domain o +:+ "/api/v1/users/" +:+ userID +:+ "/factors") None st
  = (Ok resp, st') ->
  (StatusCode resp = 200%Z ->
   GetUserFactors o userID st =
   (match json_Decode_factors (RespBody resp) with
    | Ok factors => Ok factors
    | Err err => Err ("failed to decode factors response: " +:+ err)
    end, st'))
  /\ (StatusCode resp <> 200%Z ->
      is_Err (fst (GetUserFactors o userID st))
      /\ GetUserFactors o userID st =
         (match json_Decode_ErrorResponse (RespBody resp) with
          | Ok errorResp =>
              Err ("failed to get user factors (status: " +:+ fmt_d (StatusCode resp)
                   +:+ "): " +:+ ErrorSummary errorResp)
          | Err err =>
              Err ("failed to decode error response (status: "
                   +:+ fmt_d (StatusCode resp) +:+ "): " +:+ err)
          end, st'))
  /\ (forall factors st'',
        GetUserFactors o userID st = (Ok factors, st'') ->
        StatusCode resp = 200%Z /\ json_Decode_factors (RespBody resp) = Ok factors).
Proof.
  intros Hreq. unfold GetUserFactors. rewrite (bind_Ok _ _ _ _ _ Hreq).
  split; [ | split ].
  - intros Hstatus. rewrite Hstatus. cbn [Z.eqb Pos.eqb].
    destruct (json_Decode_factors (RespBody resp)); reflexivity.
  - intros Hstatus. apply Z.eqb_neq in Hstatus. rewrite Hstatus.
    destruct (json_Decode_ErrorResponse (RespBody resp)); split;
      solve [ exact I | reflexivity ].
  - intros factors st''. destruct (StatusCode resp =? 200)%Z eqn:Hstatus.
    + apply Z.eqb_eq in Hstatus.
      destruct (json_Decode_factors (RespBody resp)); [ | discriminate ].
      intros H; inversion H; subst. auto.
    + destruct (json_Decode_ErrorResponse (RespBody resp)); discriminate.
Qed.

(** X2: on every response outside 200..299 RegisterUser fails: with
    "failed to register user (status: N): <errorSummary>" when the body
    decodes as an ErrorResponse, and with a decode error that carries the
    status otherwise. The user decoder is not consulted. *)
Theorem RegisterUser_reads_rejection
    (req : RegistrationRequest) (body : JSON) (st st' : State) (resp : Response) :
  Email (Profile req) <> "" \/ MobilePhone (Profile req) <> "" ->
  json_Marshal_RegistrationRequest (RegisterUser_login req) = Ok body ->
  makeRequest o "POST" (register_url o req) (Some body) st = (Ok resp, st') ->
  ~ is_2xx (StatusCode resp) ->
  RegisterUser o req st =
  (match json_Decode_ErrorResponse (RespBody resp) with
   | Ok errorResp =>
       Err ("failed to register user (status: " +:+ fmt_d (StatusCode resp)
            +:+ "): " +:+ ErrorSummary errorResp)
   | Err err =>
       Err ("failed to decode error response (status: "
            +:+ fmt_d (StatusCode resp) +:+ "): " +:+ err)
   end, st').
Proof.
  intros Hcontact Hbody Hreq Hstatus.
  rewrite (RegisterUser_valid o req body st Hcontact Hbody).
  rewrite (bind_Ok _ _ _ _ _ Hreq), (not_2xx_test _ Hstatus).
  destruct (json_Decode_ErrorResponse (RespBody resp)); reflexivity.
Qed.

(** X4: a failure of the user lookup, or of the factor listing after it,
    ends both verification flows at once: the error is returned
    unchanged and the state is the one that step left, so nothing more
    is sent. *)
Theorem verification_short_circuits (identifier passcode : string) (st : State) :
  (forall e st1,
      GetUser o identifier st = (Err e, st1) ->
      VerifyEmailOrPhone o identifier st = (Err e, st1)
      /\ VerifyPasscode o identifier passcode st = (Err e, st1))
  /\ (forall user e st1 st2,
        GetUser o identifier st = (Ok user, st1) ->
        GetUserFactors o (User.ID user) st1 = (Err e, st2) ->
        VerifyEmailOrPhone o identifier st = (Err e, st2)
        /\ VerifyPasscode o identifier passcode st = (Err e, st2)).
Proof.
  split.
  - intros e st1 Huser. unfold VerifyEmailOrPhone, VerifyPasscode.
    rewrite !(bind_Err _ _ _ _ _ Huser). auto.
  - intros user e st1 st2 Huser Hfactors. unfold VerifyEmailOrPhone, VerifyPasscode.
    rewrite !(bind_Ok _ _ _ _ _ Huser), !(bind_Err _ _ _ _ _ Hfactors). auto.
Qed.

End Transport.

(** ** How many requests an operation sends, and which *)

Section RoundTrips.
Context `{P : Platform}.

Lemma sends_at_most_ret {A} (a : A) : sends_at_most 0 (ret a).
Proof. intros st. exists []. cbn. rewrite app_nil_r. auto. Qed.

Lemma sends_at_most_fail {A} (e : error) : sends_at_most 0 (fail (A := A) e).
Proof. intros st. exists []. cbn. rewrite app_nil_r. auto. Qed.

Lemma sends_at_most_lift {A} (r : result A) : sends_at_most 0 (lift r).
Proof. intros st. exists []. cbn. rewrite app_nil_r. auto. Qed.

Lemma sends_at_most_le {A} (n n' : nat) (m : M A) :
  (n <= n')%nat -> sends_at_most n m -> sends_at_most n' m.
Proof.
  intros Hle Hm st. destruct (Hm st) as (new & Hsent & Hlen).
  exists new. split; [ exact Hsent | lia ].
Qed.

Lemma sends_at_most_bind {A B} (n k : nat) (m : M A) (f : A -> M B) :
  sends_at_most n m -> (forall a, sends_at_most k (f a)) ->
  sends_at_most (n + k) (bind m f).
Proof.
  intros Hm Hf st. unfold bind.
  destruct (Hm st) as (new1 & Hsent1 & Hlen1).
  destruct (m st) as [ [ a | e ] st' ]; cbn [snd] in Hsent1.
  - destruct (Hf a st') as (new2 & Hsent2 & Hlen2).
    exists (new1 ++ new2)%list. split.
    + rewrite Hsent2, Hsent1, app_assoc. reflexivity.
    + rewrite length_app. lia.
  - exists new1. split; [ exact Hsent1 | lia ].
Qed.

Lemma makeRequest_sends_at_most (o : Auth) (method urlStr : string) (body : option JSON) :
  sends_at_most 1 (makeRequest o method urlStr body).
Proof.
  intros st. pose proof (makeRequest_sent o method urlStr body st) as H.
  destruct (http_NewRequest_error method urlStr).
  - exists []. rewrite H, app_nil_r. split; [ reflexivity | cbn; lia ].
  - destruct H as (r & Hsent & _). exists [r]. split; [ exact Hsent | cbn; lia ].
Qed.

End RoundTrips.

(** Closes a goal [sends_at_most 0 k] where [k] only inspects a response. *)
Ltac sends_nothing :=
  repeat first
    [ apply sends_at_most_ret
    | apply sends_at_most_fail
    | apply sends_at_most_lift
    | match goal with
      | |- sends_at_most _ (if ?c then _ else _) => destruct c
      | |- sends_at_most _ (match ?x with _ => _ end) => destruct x
      end ].

Section RoundTripsOfOperations.
Context `{P : Platform}.
Variable o : Auth.

Lemma GetUser_sends_at_most (identifier : string) :
  sends_at_most 1 (GetUser o identifier).
Proof.
  unfold GetUser. change 1%nat with (1 + 0)%nat.
  apply sends_at_most_bind; [ apply makeRequest_sends_at_most | intros resp ].
  sends_nothing.
Qed.

Lemma GetUserFactors_sends_at_most (userID : string) :
  sends_at_most 1 (GetUserFactors o userID).
Proof.
  unfold GetUserFactors. change 1%nat with (1 + 0)%nat.
  apply sends_at_most_bind; [ apply makeRequest_sends_at_most | intros resp ].
  sends_nothing.
Qed.

(** X5: whatever the provider answers, RegisterUser, GetUser and
    GetUserFactors hand at most one request to the HTTP client, and
    VerifyEmailOrPhone and VerifyPasscode at most three; none retries,
    and none drops or reorders the requests sent before. *)
Theorem round_trips_bounded :
  (forall req, sends_at_most 1 (RegisterUser o req))
  /\ (forall identifier, sends_at_most 1 (GetUser o identifier))
  /\ (forall userID, sends_at_most 1 (GetUserFactors o userID))
  /\ (forall identifier, sends_at_most 3 (VerifyEmailOrPhone o identifier))
  /\ (forall identifier passcode, sends_at_most 3 (VerifyPasscode o identifier passcode)).
Proof.
  split.
  { intros req. unfold RegisterUser, json_Marshal_RegistrationRequest.
    destruct (String.eqb (Email (Profile req)) ""
              && String.eqb (MobilePhone (Profile req)) "").
    - apply (sends_at_most_le 0); [ lia | apply sends_at_most_fail ].
    - cbn zeta. change 1%nat with (1 + 0)%nat.
      apply sends_at_most_bind; [ apply makeRequest_sends_at_most | intros resp ].
      sends_nothing. }
  split; [ apply GetUser_sends_at_most | ].
  split; [ apply GetUserFactors_sends_at_most | ].
  split.
  - intros identifier. unfold VerifyEmailOrPhone.
    change 3%nat with (1 + (1 + (0 + (1 + 0))))%nat.
    apply sends_at_most_bind; [ apply GetUser_sends_at_most | intros user ].
    apply sends_at_most_bind; [ apply GetUserFactors_sends_at_most | intros factors ].
    apply sends_at_most_bind; [ apply sends_at_most_lift | intros found ].
    cbn zeta.
    apply sends_at_most_bind; [ apply makeRequest_sends_at_most | intros resp ].
    sends_nothing.
  - intros identifier passcode. unfold VerifyPasscode, json_Marshal_VerifyFactorRequest.
    change 3%nat with (1 + (1 + (0 + (1 + 0))))%nat.
    apply sends_at_most_bind; [ apply GetUser_sends_at_most | intros user ].
    apply sends_at_most_bind; [ apply GetUserFactors_sends_at_most | intros factors ].
    apply sends_at_most_bind; [ apply sends_at_most_lift | intros found ].
    cbn zeta.
    apply sends_at_most_bind; [ apply makeRequest_sends_at_most | intros resp ].
    sends_nothing.
Qed.

(** A successful [GetUser] has sent one GET for the identifier. *)
Lemma GetUser_Ok_sent (identifier : string) (st st1 : State) (user : User.t) :
  GetUser o identifier st = (Ok user, st1) ->
  exists r, sent st1 = (sent st ++ [r])%list
            /\ Method r = "GET"
            /\ URL r = Domain o +:+ "/api/v1/users/" +:+ identifier
            /\ Body r = None.
Proof.
  unfold GetUser, bind. intros H.
  destruct (makeRequest o "GET" (Domain o +:+ "/api/v1/users/" +:+ identifier) None st)
    as [ [ resp | e ] st' ] eqn:Hreq; [ | discriminate ].
  assert (st1 = st').
  { destruct (StatusCode resp =? 200)%Z;
      [ destruct (json_Decode_User (RespBody resp))
      | destruct (json_Decode_ErrorResponse (RespBody resp)) ];
      inversion H; reflexivity. }
  subst st1. exact (makeRequest_Ok_sent o _ _ _ _ _ _ Hreq).
Qed.

(** A successful [GetUserFactors] has sent one GET for the factors. *)
Lemma GetUserFactors_Ok_sent (userID : string) (st st1 : State) (factors : list any) :
  GetUserFactors o userID st = (Ok factors, st1) ->
  exists r, sent st1 = (sent st ++ [r])%list
            /\ Method r = "GET"
            /\ URL r = Domain o +:+ "/api/v1/users/" +:+ userID +:+ "/factors"
            /\ Body r = None.
Proof.
  unfold GetUserFactors, bind. intros H.
  destruct (makeRequest o "GET"
              (Domain o +:+ "/api/v1/users/" +:+ userID +:+ "/factors") None st)
    as [ [ resp | e ] st' ] eqn:Hreq; [ | discriminate ].
  assert (st1 = st').
  { destruct (StatusCode resp =? 200)%Z;
      [ destruct (json_Decode_factors (RespBody resp))
      | destruct (json_Decode_ErrorResponse (RespBody resp)) ];
      inversion H; reflexivity. }
  subst st1. exact (makeRequest_Ok_sent o _ _ _ _ _ _ Hreq).
Qed.

(** X6: a VerifyPasscode call that succeeds has made exactly three round
    trips, in this order: the GetUser call for the identifier, which
    sends GET /api/v1/users/<identifier>; the GetUserFactors call for the
    ID of the user that first call returned, which sends GET
    /api/v1/users/<id>/factors; and POST
    /api/v1/users/<id>/factors/<factorID>/verify, where the factor ID is
    the one the selection loop picks from the factors the second call
    returned (it is not empty), with the JSON body {passCode: <the
    passcode as encoding/json writes it>, stateToken: ""}. The answer to
    the third request has a 2xx status and the value returned is the
    configured client ID. *)
Theorem VerifyPasscode_success_trace
    (identifier passcode : string) (st st' : State) (v : string) :
  VerifyPasscode o identifier passcode st = (Ok v, st') ->
  exists (user : User.t) (factors : list any) (factorID factorType : string)
         (st1 st2 : State) (resp : Response) (r1 r2 r3 : Request),
    GetUser o identifier st = (Ok user, st1)
    /\ GetUserFactors o (User.ID user) st1 = (Ok factors, st2)
    /\ VerifyPasscode_factor user identifier factors = Ok (factorID, factorType)
    /\ makeRequest o "POST" (verify_url o user factorID)
         (Some (JObject [("passCode", JString (json_string passcode));
                         ("stateToken", JString "")])) st2
       = (Ok resp, st')
    /\ is_2xx (StatusCode resp)
    /\ v = ClientID o
    /\ sent st1 = (sent st ++ [r1])%list
    /\ sent st2 = (sent st ++ [r1; r2])%list
    /\ sent st' = (sent st ++ [r1; r2; r3])%list
    /\ factorID <> ""
    /\ (Method r1 = "GET"
        /\ URL r1 = Domain o +:+ "/api/v1/users/" +:+ identifier
        /\ Body r1 = None)
    /\ (Method r2 = "GET"
        /\ URL r2 = Domain o +:+ "/api/v1/users/" +:+ User.ID user +:+ "/factors"
        /\ Body r2 = None)
    /\ (Method r3 = "POST"
        /\ URL r3 = Domain o +:+ "/api/v1/users/" +:+ User.ID user +:+ "/factors/"
                    +:+ factorID +:+ "/verify"
        /\ Body r3 = Some (JObject [("passCode", JString (json_string passcode));
                                    ("stateToken", JString "")])).
Proof.
  unfold VerifyPasscode, bind, lift. intros H.
  destruct (GetUser o identifier st) as [ [ user | e ] st1 ] eqn:Huser;
    [ | discriminate ].
  destruct (GetUserFactors o (User.ID user) st1) as [ [ factors | e ] st2 ] eqn:Hfactors;
    [ | discriminate ].
  destruct (VerifyPasscode_factor user identifier factors) as [ [factorID factorType] | e ]
    eqn:Hsel; [ | discriminate ].
  cbn [fst snd json_Marshal_VerifyFactorRequest PassCode StateToken json_string] in H.
  fold (verify_url o user factorID) in H.
  destruct (makeRequest o "POST" (verify_url o user factorID)
              (Some (JObject [("passCode", JString (json_string passcode));
                              ("stateToken", JString "")])) st2)
    as [ [ resp | e ] st3 ] eqn:Hreq; [ | discriminate ].
  destruct ((200 <=? StatusCode resp)%Z && (StatusCode resp <? 300)%Z) eqn:Hstatus;
    [ | destruct (json_Decode_ErrorResponse (RespBody resp)); discriminate ].
  unfold ret in H. inversion H; subst v st'. clear H.
  destruct (GetUser_Ok_sent _ _ _ _ Huser) as (r1 & Hs1 & Hr1).
  destruct (GetUserFactors_Ok_sent _ _ _ _ Hfactors) as (r2 & Hs2 & Hr2).
  destruct (makeRequest_Ok_sent o _ _ _ _ _ _ Hreq) as (r3 & Hs3 & Hr3).
  exists user, factors, factorID, factorType, st1, st2, resp, r1, r2, r3.
  split; [ first [ exact Huser | reflexivity ] | ].
  split; [ exact Hfactors | ]. split; [ exact Hsel | ]. split; [ exact Hreq | ].
  split; [ unfold is_2xx; lia | ].
  split; [ reflexivity | ].
  split; [ exact Hs1 | ].
  split; [ rewrite Hs2, Hs1, <- !app_assoc; reflexivity | ].
  split; [ rewrite Hs3, Hs2, Hs1, <- !app_assoc; reflexivity | ].
  split.
  { intros ->. unfold VerifyPasscode_factor in Hsel.
    destruct (VerifyPasscode_loop user identifier factors) as [fid fty].
    destruct (String.eqb fid "") eqn:Hfid; [ discriminate | ].
    inversion Hsel; subst. discriminate. }
  auto.
Qed.

(** X7: a VerifyEmailOrPhone call that succeeds has made exactly three
    round trips, in this order: the GetUser call for the identifier,
    which sends GET /api/v1/users/<identifier>; the GetUserFactors call
    for the ID of the user that first call returned, which sends GET
    /api/v1/users/<id>/factors; and a POST with no body to
    /api/v1/users/<id>/factors/<factorID>/verify, where the factor ID is
    the one the selection loop picks from the factors the second call
    returned (it is not empty). The answer to the third request has
    status 200 or 202, its body decodes, and the value returned is the
    sessionToken of the decoded body. *)
Theorem VerifyEmailOrPhone_success_trace
    (identifier : string) (st st' : State) (token : string) :
  VerifyEmailOrPhone o identifier st = (Ok token, st') ->
  exists (user : User.t) (factors : list any) (factorID factorType : string)
         (st1 st2 : State) (resp : Response) (verifyResponse : VerifyFactorResponse)
         (r1 r2 r3 : Request),
    GetUser o identifier st = (Ok user, st1)
    /\ GetUserFactors o (User.ID user) st1 = (Ok factors, st2)
    /\ VerifyEmailOrPhone_factor user identifier factors = Ok (factorID, factorType)
    /\ makeRequest o "POST" (verify_url o user factorID) None st2 = (Ok resp, st')
    /\ (StatusCode resp = 200 \/ StatusCode resp = 202)%Z
    /\ json_Decode_VerifyFactorResponse (RespBody resp) = Ok verifyResponse
    /\ token = SessionToken verifyResponse
    /\ sent st1 = (sent st ++ [r1])%list
    /\ sent st2 = (sent st ++ [r1; r2])%list
    /\ sent st' = (sent st ++ [r1; r2; r3])%list
    /\ factorID <> ""
    /\ (Method r1 = "GET"
        /\ URL r1 = Domain o +:+ "/api/v1/users/" +:+ identifier
        /\ Body r1 = None)
    /\ (Method r2 = "GET"
        /\ URL r2 = Domain o +:+ "/api/v1/users/" +:+ User.ID user +:+ "/factors"
        /\ Body r2 = None)
    /\ (Method r3 = "POST"
        /\ URL r3 = Domain o +:+ "/api/v1/users/" +:+ User.ID user +:+ "/factors/"
                    +:+ factorID +:+ "/verify"
        /\ Body r3 = None).
Proof.
  unfold VerifyEmailOrPhone, bind, lift. intros H.
  destruct (GetUser o identifier st) as [ [ user | e ] st1 ] eqn:Huser;
    [ | discriminate ].
  destruct (GetUserFactors o (User.ID user) st1) as [ [ factors | e ] st2 ] eqn:Hfactors;
    [ | discriminate ].
  destruct (VerifyEmailOrPhone_factor user identifier factors)
    as [ [factorID factorType] | e ] eqn:Hsel; [ | discriminate ].
  cbn [fst snd] in H.
  fold (verify_url o user factorID) in H.
  destruct (makeRequest o "POST" (verify_url o user factorID) None st2)
    as [ [ resp | e ] st3 ] eqn:Hreq; [ | discriminate ].
  destruct (negb (StatusCode resp =? 200)%Z && negb (StatusCode resp =? 202)%Z)
    eqn:Hstatus;
    [ destruct (json_Decode_ErrorResponse (RespBody resp)); discriminate | ].
  destruct (json_Decode_VerifyFactorResponse (RespBody resp)) as [ verifyResponse | e ]
    eqn:Hdecode; [ | discriminate ].
  unfold ret in H. inversion H; subst token st'. clear H.
  destruct (GetUser_Ok_sent _ _ _ _ Huser) as (r1 & Hs1 & Hr1).
  destruct (GetUserFactors_Ok_sent _ _ _ _ Hfactors) as (r2 & Hs2 & Hr2).
  destruct (makeRequest_Ok_sent o _ _ _ _ _ _ Hreq) as (r3 & Hs3 & Hr3).
  exists user, factors, factorID, factorType, st1, st2, resp, verifyResponse, r1, r2, r3.
  split; [ first [ exact Huser | reflexivity ] | ].
  split; [ exact Hfactors | ]. split; [ exact Hsel | ]. split; [ exact Hreq | ].
  split.
  { destruct (StatusCode resp =? 200)%Z eqn:H200; [ left; lia | ].
    destruct (StatusCode resp =? 202)%Z eqn:H202; [ right; lia | discriminate ]. }
  split; [ exact Hdecode | ].
  split; [ reflexivity | ].
  split; [ exact Hs1 | ].
  split; [ rewrite Hs2, Hs1, <- !app_assoc; reflexivity | ].
  split; [ rewrite Hs3, Hs2, Hs1, <- !app_assoc; reflexivity | ].
  split.
  { intros ->. unfold VerifyEmailOrPhone_factor in Hsel.
    destruct (VerifyEmailOrPhone_loop user identifier factors) as [fid fty].
    destruct (String.eqb fid "") eqn:Hfid; [ discriminate | ].
    inversion Hsel; subst. discriminate. }
  auto.
Qed.

End RoundTripsOfOperations.

(** ** More on the factor selection *)

Section SelectionProperties.
Variables (user : User.t) (identifier : string).

(** The two selections are one function. *)
Lemma factors_agree (factors : list any) :
  VerifyPasscode_factor user identifier factors
  = VerifyEmailOrPhone_factor user identifier factors.
Proof.
  rewrite VerifyPasscode_factor_first. symmetry. apply VerifyEmailOrPhone_factor_first.
Qed.

(** What a qualifying entry looks like, field by field. *)
Lemma qualifies_inv (f : any) :
  qualifies user identifier f = true ->
  exists m ty,
    f = any_map m
    /\ m !! "provider" = Some (any_string "OKTA")
    /\ m !! "factorType" = Some (any_string ty)
    /\ ((ty = "email"
         /\ User.Email (User.Profile user) <> ""
         /\ (identifier = User.Email (User.Profile user) \/ identifier = User.ID user))
        \/ (ty = "sms"
            /\ User.MobilePhone (User.Profile user) <> ""
            /\ (identifier = User.MobilePhone (User.Profile user)
                \/ identifier = User.ID user))).
Proof.
  unfold qualifies, factor_field, profile_field.
  destruct f as [ | | | | | m ]; try discriminate.
  destruct (m !! "provider") as [ [ | | | provider | | ] | ] eqn:Hprovider;
    try discriminate.
  destruct (m !! "factorType") as [ [ | | | ty | | ] | ] eqn:Hty; try discriminate.
  intros H. apply andb_true_iff in H as [Hp H].
  apply String.eqb_eq in Hp; subst provider.
  exists m, ty. split; [ reflexivity | ].
  split; [ exact Hprovider | ]. split; [ exact Hty | ].
  destruct (String.eqb ty "email") eqn:He.
  - apply String.eqb_eq in He. left. split; [ exact He | ].
    apply andb_true_iff in H as [Hn Hi]. split.
    + intros Hc. rewrite Hc in Hn. discriminate.
    + apply orb_true_iff in Hi as [ Hi | Hi ]; apply String.eqb_eq in Hi; auto.
  - destruct (String.eqb ty "sms") eqn:Hs; [ | discriminate ].
    apply String.eqb_eq in Hs. right. split; [ exact Hs | ].
    apply andb_true_iff in H as [Hn Hi]. split.
    + intros Hc. rewrite Hc in Hn. discriminate.
    + apply orb_true_iff in Hi as [ Hi | Hi ]; apply String.eqb_eq in Hi; auto.
Qed.

(** X8: whatever either flow selects is backed by an entry of the list:
    a JSON object with provider "OKTA", the returned factor type, which
    is "email" or "sms", and the returned factor ID as a non-empty string
    id; the identity's email (for "email") or mobile phone (for "sms") is
    non-empty, and the identifier is that contact or the identity's ID.
    In particular no factor of another provider or type is ever
    selected. *)
Theorem factor_selection_sound (factors : list any) (factorID factorType : string) :
  VerifyEmailOrPhone_factor user identifier factors = Ok (factorID, factorType)
  \/ VerifyPasscode_factor user identifier factors = Ok (factorID, factorType) ->
  factorID <> ""
  /\ exists m,
       In (any_map m) factors
       /\ m !! "provider" = Some (any_string "OKTA")
       /\ m !! "factorType" = Some (any_string factorType)
       /\ m !! "id" = Some (any_string factorID)
       /\ ((factorType = "email"
            /\ User.Email (User.Profile user) <> ""
            /\ (identifier = User.Email (User.Profile user)
                \/ identifier = User.ID user))
           \/ (factorType = "sms"
               /\ User.MobilePhone (User.Profile user) <> ""
               /\ (identifier = User.MobilePhone (User.Profile user)
                   \/ identifier = User.ID user))).
Proof.
  intros H.
  assert (Hsel : VerifyEmailOrPhone_factor user identifier factors
                 = Ok (factorID, factorType)).
  { destruct H as [ H | H ]; [ exact H | ].
    exact (eq_trans (eq_sym (factors_agree _)) H). }
  clear H. rewrite VerifyEmailOrPhone_factor_first in Hsel.
  destruct (first_qualifying user identifier factors) as [ f | ] eqn:Hfirst;
    [ | discriminate ].
  apply find_some in Hfirst as [Hin Hq].
  apply qualifies_inv in Hq as (m & ty & -> & Hprovider & Hty & Hmatch).
  unfold factor_field in Hsel. rewrite Hty in Hsel.
  destruct (m !! "id") as [ [ | | | id | | ] | ] eqn:Hid; try discriminate.
  destruct (String.eqb id "") eqn:Hempty; [ discriminate | ].
  inversion Hsel; subst id ty. split.
  - intros ->. discriminate.
  - exists m. auto 6.
Qed.

Lemma not_okta_not_qualifying (f : any) :
  is_okta_object f = false -> qualifies user identifier f = false.
Proof.
  intros Hno. destruct (qualifies user identifier f) eqn:Hq; [ | reflexivity ].
  apply qualifies_inv in Hq as (m & ty & -> & Hprovider & _).
  cbn in Hno. rewrite Hprovider in Hno. discriminate.
Qed.

Lemma VerifyEmailOrPhone_loop_filter (factors : list any) :
  VerifyEmailOrPhone_loop user identifier (List.filter is_okta_object factors)
  = VerifyEmailOrPhone_loop user identifier factors.
Proof.
  induction factors as [ | f rest IH ]; [ reflexivity | ].
  cbn [List.filter]. destruct (is_okta_object f) eqn:Hokta.
  - rewrite !VerifyEmailOrPhone_loop_cons, IH. reflexivity.
  - rewrite VerifyEmailOrPhone_loop_cons, (not_okta_not_qualifying f Hokta). exact IH.
Qed.

(** X9: entries that are not JSON objects, or whose provider is not the
    string "OKTA", have no influence on either selection wherever they
    stand in the list: dropping them all gives the same outcome. *)
Theorem factor_selection_ignores_other_providers (factors : list any) :
  VerifyEmailOrPhone_factor user identifier (List.filter is_okta_object factors)
  = VerifyEmailOrPhone_factor user identifier factors
  /\ VerifyPasscode_factor user identifier (List.filter is_okta_object factors)
     = VerifyPasscode_factor user identifier factors.
Proof.
  assert (H : VerifyEmailOrPhone_factor user identifier
                (List.filter is_okta_object factors)
              = VerifyEmailOrPhone_factor user identifier factors).
  { unfold VerifyEmailOrPhone_factor. rewrite VerifyEmailOrPhone_loop_filter.
    reflexivity. }
  split; [ exact H | ].
  exact (eq_trans (factors_agree _) (eq_trans H (eq_sym (factors_agree _)))).
Qed.

Lemma factor_field_add_field (k k' : string) (v : any) (f : any) :
  k <> k' -> factor_field k' (add_field k v f) = factor_field k' f.
Proof.
  intros Hne. destruct f as [ | | | | | m ]; try reflexivity.
  cbn. rewrite lookup_insert_ne by exact Hne. reflexivity.
Qed.

Lemma VerifyEmailOrPhone_loop_add_field (k : string) (v : any) (factors : list any) :
  k <> "provider" -> k <> "factorType" -> k <> "id" ->
  VerifyEmailOrPhone_loop user identifier (List.map (add_field k v) factors)
  = VerifyEmailOrPhone_loop user identifier factors.
Proof.
  intros Hp Ht Hi. induction factors as [ | f rest IH ]; [ reflexivity | ].
  cbn [List.map]. rewrite !VerifyEmailOrPhone_loop_cons, IH.
  unfold qualifies, selected. rewrite !factor_field_add_field by assumption.
  reflexivity.
Qed.

(** X10: the selections read only the fields "provider", "factorType"
    and "id" of a factor: setting any other field, to any value, in every
    factor object of the list changes neither outcome. *)
Theorem factor_selection_reads_three_fields
    (k : string) (v : any) (factors : list any) :
  k <> "provider" -> k <> "factorType" -> k <> "id" ->
  VerifyEmailOrPhone_factor user identifier (List.map (add_field k v) factors)
  = VerifyEmailOrPhone_factor user identifier factors
  /\ VerifyPasscode_factor user identifier (List.map (add_field k v) factors)
     = VerifyPasscode_factor user identifier factors.
Proof.
  intros Hp Ht Hi.
  assert (H : VerifyEmailOrPhone_factor user identifier (List.map (add_field k v) factors)
              = VerifyEmailOrPhone_factor user identifier factors).
  { unfold VerifyEmailOrPhone_factor.
    rewrite VerifyEmailOrPhone_loop_add_field by assumption. reflexivity. }
  split; [ exact H | ].
  exact (eq_trans (factors_agree _) (eq_trans H (eq_sym (factors_agree _)))).
Qed.

(** X11: when the identifier is the identity's own ID and the identity
    has both an email and a mobile phone, an OKTA email factor and an
    OKTA sms factor both qualify, and the order of the list alone
    decides: whichever comes first is selected. *)
Theorem factor_selection_order_decides
    (email_factor sms_factor : gmap string any) (emailID smsID : string) :
  identifier = User.ID user ->
  User.Email (User.Profile user) <> "" ->
  User.MobilePhone (User.Profile user) <> "" ->
  email_factor !! "provider" = Some (any_string "OKTA") ->
  email_factor !! "factorType" = Some (any_string "email") ->
  email_factor !! "id" = Some (any_string emailID) ->
  sms_factor !! "provider" = Some (any_string "OKTA") ->
  sms_factor !! "factorType" = Some (any_string "sms") ->
  sms_factor !! "id" = Some (any_string smsID) ->
  emailID <> "" -> smsID <> "" ->
  VerifyEmailOrPhone_factor user identifier [any_map email_factor; any_map sms_factor]
  = Ok (emailID, "email")
  /\ VerifyEmailOrPhone_factor user identifier [any_map sms_factor; any_map email_factor]
     = Ok (smsID, "sms")
  /\ VerifyPasscode_factor user identifier [any_map email_factor; any_map sms_factor]
     = Ok (emailID, "email")
  /\ VerifyPasscode_factor user identifier [any_map sms_factor; any_map email_factor]
     = Ok (smsID, "sms").
Proof.
  intros Hident Hemail Hphone Hep Het Hei Hsp Hst Hsi Heid Hsid.
  apply String.eqb_neq in Hemail, Hphone, Heid, Hsid.
  assert (Hself : String.eqb identifier (User.ID user) = true)
    by (apply String.eqb_eq; exact Hident).
  assert (Hqe : qualifies user identifier (any_map email_factor) = true).
  { unfold qualifies, factor_field, profile_field. rewrite Hep, Het. cbn.
    rewrite Hemail, Hself, orb_true_r. reflexivity. }
  assert (Hqs : qualifies user identifier (any_map sms_factor) = true).
  { unfold qualifies, factor_field, profile_field. rewrite Hsp, Hst. cbn.
    rewrite Hphone, Hself, orb_true_r. reflexivity. }
  assert (Hfirst : VerifyEmailOrPhone_factor user identifier
                     [any_map email_factor; any_map sms_factor] = Ok (emailID, "email")).
  { rewrite VerifyEmailOrPhone_factor_first. unfold first_qualifying. cbn [find].
    rewrite Hqe. unfold factor_field. rewrite Hei, Het, Heid. reflexivity. }
  assert (Hsecond : VerifyEmailOrPhone_factor user identifier
                      [any_map sms_factor; any_map email_factor] = Ok (smsID, "sms")).
  { rewrite VerifyEmailOrPhone_factor_first. unfold first_qualifying. cbn [find].
    rewrite Hqs. unfold factor_field. rewrite Hsi, Hst, Hsid. reflexivity. }
  split; [ exact Hfirst | ]. split; [ exact Hsecond | ].
  split; [ exact (eq_trans (factors_agree _) Hfirst)
         | exact (eq_trans (factors_agree _) Hsecond) ].
Qed.

End SelectionProperties.

(** ** The registration request on the wire *)

Section RegistrationPayload.
Context `{P : Platform}.
Variable o : Auth.

(** The defaulting block changes the login only. *)
Lemma RegisterUser_login_keeps (req : RegistrationRequest) :
  FirstName (Profile (RegisterUser_login req)) = FirstName (Profile req)
  /\ LastName (Profile (RegisterUser_login req)) = LastName (Profile req)
  /\ Email (Profile (RegisterUser_login req)) = Email (Profile req)
  /\ MobilePhone (Profile (RegisterUser_login req)) = MobilePhone (Profile req)
  /\ SendEmail (RegisterUser_login req) = SendEmail req
  /\ SendSMS (RegisterUser_login req) = SendSMS req.
Proof.
  unfold RegisterUser_login.
  destruct (String.eqb (Login (Profile req)) ""); [ | auto 6 ].
  destruct (negb (String.eqb (Email (Profile req)) "")); cbn; auto 6.
Qed.

(** The fields of a marshalled profile. *)
Lemma json_Marshal_UserProfile_fields (p : UserProfile) :
  JSON_get "firstName" (json_Marshal_UserProfile p)
  = Some (JString (json_string (FirstName p)))
  /\ JSON_get "lastName" (json_Marshal_UserProfile p)
     = Some (JString (json_string (LastName p)))
  /\ JSON_get "email" (json_Marshal_UserProfile p)
     = (if String.eqb (Email p) "" then None
        else Some (JString (json_string (Email p))))
  /\ JSON_get "mobilePhone" (json_Marshal_UserProfile p)
     = (if String.eqb (MobilePhone p) "" then None
        else Some (JString (json_string (MobilePhone p)))).
Proof.
  unfold json_Marshal_UserProfile, omitempty.
  destruct (String.eqb (Email p) ""), (String.eqb (MobilePhone p) "");
    repeat split; reflexivity.
Qed.

(** With an email or a phone, the login that is sent is never empty. *)
Lemma login_on_wire_nonempty (req : RegistrationRequest) :
  Email (Profile req) <> "" \/ MobilePhone (Profile req) <> "" ->
  login_on_wire req <> "".
Proof.
  intros Hcontact. unfold login_on_wire.
  destruct (String.eqb (Login (Profile req)) "") eqn:Hlogin.
  - destruct (String.eqb (Email (Profile req)) "") eqn:Hemail.
    + apply String.eqb_eq in Hemail. destruct Hcontact as [ H | H ]; [ | exact H ].
      contradiction.
    + now apply String.eqb_neq.
  - now apply String.eqb_neq.
Qed.

(** The requests of a valid registration: none when the request cannot
    be built, else the one request made of the marshalled, defaulted
    registration. *)
Lemma RegisterUser_requests (req : RegistrationRequest) (st : State) :
  Email (Profile req) <> "" \/ MobilePhone (Profile req) <> "" ->
  exists new : list Request,
    sent (snd (RegisterUser o req st)) = (sent st ++ new)%list
    /\ Forall (fun r =>
                 Method r = "POST" /\ URL r = register_url o req
                 /\ Body r = Some (JObject
                                     [("profile", json_Marshal_UserProfile
                                                    (Profile (RegisterUser_login req)));
                                      ("activate", JBool (Activate (RegisterUser_login req)));
                                      ("sendEmail", JBool (SendEmail (RegisterUser_login req)));
                                      ("sendSMS", JBool (SendSMS (RegisterUser_login req)))]))
              new.
Proof.
  intros Hcontact. rewrite (RegisterUser_state o req _ st Hcontact eq_refl).
  match goal with
  | |- context [makeRequest o "POST" ?u ?b st] =>
      pose proof (makeRequest_sent o "POST" u b st) as Hsent
  end.
  destruct (http_NewRequest_error "POST" (register_url o req)).
  - exists []. rewrite Hsent, app_nil_r. split; [ reflexivity | constructor ].
  - destruct Hsent as (r & Hsent & Hm & Hu & Hb & _).
    exists [r]. split; [ exact Hsent | ]. constructor; [ | constructor ]. auto.
Qed.

(** X12: in every request a valid registration sends, the JSON profile
    has firstName and lastName, has the key email exactly when the
    caller's email is non-empty and the key mobilePhone exactly when the
    caller's mobile phone is non-empty, and has a login that is never
    the empty string. Each value is the caller's string as encoding/json
    writes it: the string itself when it is valid UTF-8, and with every
    byte that starts no well-formed rune replaced by U+FFFD otherwise. *)
Theorem RegisterUser_profile_sent (req : RegistrationRequest) (st : State) :
  Email (Profile req) <> "" \/ MobilePhone (Profile req) <> "" ->
  (exists new : list Request,
    sent (snd (RegisterUser o req st)) = (sent st ++ new)%list
    /\ Forall (fun r =>
                 exists profile login,
                   payload_profile r = Some profile
                   /\ JSON_get "firstName" profile
                      = Some (JString (json_string (FirstName (Profile req))))
                   /\ JSON_get "lastName" profile
                      = Some (JString (json_string (LastName (Profile req))))
                   /\ JSON_get "email" profile
                      = (if String.eqb (Email (Profile req)) "" then None
                         else Some (JString (json_string (Email (Profile req)))))
                   /\ JSON_get "mobilePhone" profile
                      = (if String.eqb (MobilePhone (Profile req)) "" then None
                         else Some (JString (json_string (MobilePhone (Profile req)))))
                   /\ JSON_get "login" profile = Some (JString login)
                   /\ login = json_string (login_on_wire req)
                   /\ login <> "")
              new)
  /\ (forall s : string, utf8_valid s = true -> json_string s = s).
Proof.
  intros Hcontact. split; [ | exact json_string_valid ].
  destruct (RegisterUser_requests req st Hcontact) as (new & Hsent & Hall).
  exists new. split; [ exact Hsent | ].
  eapply Forall_impl; [ exact Hall | ].
  intros r (_ & _ & Hbody).
  exists (json_Marshal_UserProfile (Profile (RegisterUser_login req))),
         (json_string (login_on_wire req)).
  destruct (json_Marshal_UserProfile_fields (Profile (RegisterUser_login req)))
    as (Hfirst & Hlast & Hemail & Hphone).
  destruct (RegisterUser_login_keeps req) as (Kf & Kl & Ke & Kp & _).
  rewrite Kf in Hfirst. rewrite Kl in Hlast. rewrite Ke in Hemail. rewrite Kp in Hphone.
  split.
  { unfold payload_profile. rewrite Hbody. reflexivity. }
  repeat (split; [ assumption | ]).
  split.
  { rewrite json_Marshal_UserProfile_login, RegisterUser_login_on_wire. reflexivity. }
  split; [ reflexivity | ].
  apply json_string_nonempty. now apply login_on_wire_nonempty.
Qed.

(** X13: every request a valid registration sends is a POST to
    <Domain>/api/v1/users?activate=true or ...=false, and the activate
    flag in the URL is the activate field of the JSON body, the caller's
    flag; sendEmail and sendSMS are sent as given. *)
Theorem RegisterUser_flags_sent (req : RegistrationRequest) (st : State) :
  Email (Profile req) <> "" \/ MobilePhone (Profile req) <> "" ->
  exists new : list Request,
    sent (snd (RegisterUser o req st)) = (sent st ++ new)%list
    /\ Forall (fun r =>
                 Method r = "POST"
                 /\ URL r = Domain o +:+ "/api/v1/users?activate="
                            +:+ (if Activate req then "true" else "false")
                 /\ payload_field "activate" r = Some (JBool (Activate req))
                 /\ payload_field "sendEmail" r = Some (JBool (SendEmail req))
                 /\ payload_field "sendSMS" r = Some (JBool (SendSMS req)))
              new.
Proof.
  intros Hcontact.
  destruct (RegisterUser_requests req st Hcontact) as (new & Hsent & Hall).
  exists new. split; [ exact Hsent | ].
  eapply Forall_impl; [ exact Hall | ].
  intros r (Hm & Hu & Hbody).
  destruct (RegisterUser_login_keeps req) as (_ & _ & _ & _ & Kse & Kss).
  split; [ exact Hm | ]. split; [ exact Hu | ].
  unfold payload_field. rewrite Hbody, RegisterUser_login_Activate, Kse, Kss.
  repeat split; reflexivity.
Qed.

End RegistrationPayload.

(** * Properties of [shop/internal/auth/okta.go] *)

Section OktaFunctions.
Context `{S : Okta.SDK}.

(** X14: when an email is given, ValidateUser looks the user up by email
    alone: it makes one ListUsers call with the filter
    profile.email eq "<email>", and its outcome does not depend on the
    phone number passed with it. *)
Theorem ValidateUser_email_first (email : string) (st : Okta.State) :
  email <> "" ->
  forall phoneNumber phoneNumber',
    Okta.ValidateUser email phoneNumber st = Okta.ValidateUser email phoneNumber' st
    /\ Okta.calls (snd (Okta.ValidateUser email phoneNumber st))
       = (Okta.calls st
          ++ [Okta.ListUsers ("profile.email eq " +:+ Okta.dquote +:+ email
                              +:+ Okta.dquote)])%list.
Proof.
  intros Hemail phoneNumber phoneNumber'. apply String.eqb_neq in Hemail.
  unfold Okta.ValidateUser, Okta.ValidateUser_filter. rewrite Hemail. cbn [negb].
  split; [ reflexivity | ].
  destruct (Okta.UserAPI_ListUsers _ (Okta.directory st)) as [ [ [ | first rest ] | e ] d ];
    reflexivity.
Qed.

(** X15: a ValidateUser call that succeeds was given an email or a phone
    number, made exactly one ListUsers call, filtered by the email when
    one was given and by the phone number otherwise, and returns the ID
    of the first user of the list the provider answered with. *)
Theorem ValidateUser_success (email phoneNumber : string) (st st' : Okta.State)
    (id : string) :
  Okta.ValidateUser email phoneNumber st = (Ok id, st') ->
  (email <> "" \/ phoneNumber <> "")
  /\ exists filter first rest,
       filter = (if String.eqb email ""
                 then "profile.phoneNumber eq " +:+ Okta.dquote +:+ phoneNumber
                      +:+ Okta.dquote
                 else "profile.email eq " +:+ Okta.dquote +:+ email +:+ Okta.dquote)
       /\ Okta.UserAPI_ListUsers filter (Okta.directory st)
          = (Ok (first :: rest), Okta.directory st')
       /\ id = Okta.Id first
       /\ Okta.calls st' = (Okta.calls st ++ [Okta.ListUsers filter])%list.
Proof.
  unfold Okta.ValidateUser, Okta.ValidateUser_filter. intros H.
  destruct (String.eqb email "") eqn:Hemail; cbn [negb] in H.
  - destruct (String.eqb phoneNumber "") eqn:Hphone; cbn [negb] in H;
      [ discriminate | ].
    split; [ right; now apply String.eqb_neq | ].
    destruct (Okta.UserAPI_ListUsers _ (Okta.directory st))
      as [ [ [ | first rest ] | e ] d ] eqn:Hlist; try discriminate.
    inversion H; subst. eexists. exists first, rest. cbn.
    split; [ reflexivity | ]. split; [ exact Hlist | ]. split; reflexivity.
  - split; [ left; now apply String.eqb_neq | ].
    destruct (Okta.UserAPI_ListUsers _ (Okta.directory st))
      as [ [ [ | first rest ] | e ] d ] eqn:Hlist; try discriminate.
    inversion H; subst. eexists. exists first, rest. cbn.
    split; [ reflexivity | ]. split; [ exact Hlist | ]. split; reflexivity.
Qed.

(** X16: ValidateUser fails without calling the provider when both the
    email and the phone number are empty; when the provider's list is
    empty it fails with "user not found"; and an error of the ListUsers
    call is returned unchanged. *)
Theorem ValidateUser_failures (st : Okta.State) :
  Okta.ValidateUser "" "" st
  = (Err "either email or phone number must be provided", st)
  /\ (forall email phoneNumber filter d,
        Okta.ValidateUser_filter email phoneNumber = Ok filter ->
        Okta.UserAPI_ListUsers filter (Okta.directory st) = (Ok [], d) ->
        fst (Okta.ValidateUser email phoneNumber st) = Err "user not found")
  /\ (forall email phoneNumber filter e d,
        Okta.ValidateUser_filter email phoneNumber = Ok filter ->
        Okta.UserAPI_ListUsers filter (Okta.directory st) = (Err e, d) ->
        fst (Okta.ValidateUser email phoneNumber st) = Err e).
Proof.
  split; [ reflexivity | ]. split.
  - intros email phoneNumber filter d Hfilter Hlist. unfold Okta.ValidateUser.
    rewrite Hfilter, Hlist. reflexivity.
  - intros email phoneNumber filter e d Hfilter Hlist. unfold Okta.ValidateUser.
    rewrite Hfilter, Hlist. reflexivity.
Qed.

(** X17: RegisterUser of this package validates nothing: for every email
    and phone number, both empty included, it makes exactly one
    CreateUser call with a user of that email and phone, and returns the
    ID of the user the provider created, or the provider's error
    unchanged. *)
Theorem Okta_RegisterUser_always_calls (email phoneNumber : string) (st : Okta.State) :
  Okta.calls (snd (Okta.RegisterUser email phoneNumber st))
  = (Okta.calls st
     ++ [Okta.CreateUser
           {| Okta.Id := "";
              Okta.Profile := {| Okta.Email := email;
                                 Okta.MobilePhone := phoneNumber |} |}])%list
  /\ fst (Okta.RegisterUser email phoneNumber st)
     = match fst (Okta.UserAPI_CreateUser
                    {| Okta.Id := "";
                       Okta.Profile := {| Okta.Email := email;
                                          Okta.MobilePhone := phoneNumber |} |}
                    (Okta.directory st)) with
       | Ok createdUser => Ok (Okta.Id createdUser)
       | Err err => Err err
       end.
Proof.
  unfold Okta.RegisterUser.
  destruct (Okta.UserAPI_CreateUser _ (Okta.directory st)) as [ [ created | e ] d ];
    split; reflexivity.
Qed.

End OktaFunctions.

(** * The further properties on scripted providers *)

(** A factor listing answered 200 with one factor. *)
Lemma GetUserFactors_reads_response_witness :
  GetUserFactors sc_auth "u1" (sc_state [answers 200 (body_factors [sc_factor_f1])])
  = (Ok [sc_factor_f1],
     snd (makeRequest sc_auth "GET" "https://dev.example.com/api/v1/users/u1/factors"
            None (sc_state [answers 200 (body_factors [sc_factor_f1])]))).
Proof.
  pose proof (GetUserFactors_reads_response sc_auth "u1"
                (sc_state [answers 200 (body_factors [sc_factor_f1])])
                (snd (makeRequest sc_auth "GET"
                        "https://dev.example.com/api/v1/users/u1/factors" None
                        (sc_state [answers 200 (body_factors [sc_factor_f1])])))
                {| StatusCode := 200; RespBody := body_factors [sc_factor_f1] |}) as H.
  assert (Hreq : makeRequest sc_auth "GET"
                   (Domain sc_auth +:+ "/api/v1/users/" +:+ "u1" +:+ "/factors") None
                   (sc_state [answers 200 (body_factors [sc_factor_f1])])
                 = (Ok {| StatusCode := 200; RespBody := body_factors [sc_factor_f1] |},
                    snd (makeRequest sc_auth "GET"
                           "https://dev.example.com/api/v1/users/u1/factors" None
                           (sc_state [answers 200 (body_factors [sc_factor_f1])]))))
    by (vm_compute; reflexivity).
  specialize (H Hreq). destruct H as (Hok & _).
  exact (Hok eq_refl).
Defined.

(** A registration answered 400 with an ErrorResponse. *)
Lemma RegisterUser_reads_rejection_witness :
  fst (RegisterUser sc_auth sc_registration
         (sc_state [answers 400 (body_ErrorResponse (sc_not_found "E0000001"))]))
  = Err "failed to register user (status: 400): Not found".
Proof.
  assert (Hcontact : Email (Profile sc_registration) <> ""
                     \/ MobilePhone (Profile sc_registration) <> "")
    by (left; discriminate).
  assert (Hreq : makeRequest sc_auth "POST" (register_url sc_auth sc_registration)
                   (Some (JObject [("profile",
                                    json_Marshal_UserProfile
                                      (Profile (RegisterUser_login sc_registration)));
                                   ("activate", JBool true);
                                   ("sendEmail", JBool true);
                                   ("sendSMS", JBool false)]))
                   (sc_state [answers 400 (body_ErrorResponse (sc_not_found "E0000001"))])
                 = (Ok {| StatusCode := 400;
                          RespBody := body_ErrorResponse (sc_not_found "E0000001") |},
                    snd (makeRequest sc_auth "POST"
                           (register_url sc_auth sc_registration)
                           (Some (JObject [("profile",
                                            json_Marshal_UserProfile
                                              (Profile (RegisterUser_login sc_registration)));
                                           ("activate", JBool true);
                                           ("sendEmail", JBool true);
                                           ("sendSMS", JBool false)]))
                           (sc_state [answers 400
                                        (body_ErrorResponse (sc_not_found "E0000001"))]))))
    by (vm_compute; reflexivity).
  assert (Hstatus : ~ is_2xx (StatusCode
                                {| StatusCode := 400;
                                   RespBody := body_ErrorResponse
                                                 (sc_not_found "E0000001") |}))
    by (unfold is_2xx; cbn; lia).
  pose proof (RegisterUser_reads_rejection sc_auth sc_registration _ _ _ _
                Hcontact eq_refl Hreq Hstatus) as H.
  rewrite H. reflexivity.
Defined.

(** A client whose domain has no scheme cannot build its request and
    sends nothing; a round trip that times out is reported as such. *)
Lemma makeRequest_outcomes_witness :
  makeRequest sc_auth_no_scheme "GET" ":/api/v1/users/u1" None sc_state_no_scheme
  = (Err "failed to create request: missing protocol scheme", sc_state_no_scheme)
  /\ fst (makeRequest sc_auth "GET" "https://dev.example.com/api/v1/users/u1" None
            (sc_state [breaks {| do_message := "context deadline exceeded";
                                 do_url_timeout := true |}]))
     = Err "request timed out: context deadline exceeded".
Proof.
  split.
  - exact (proj1 (makeRequest_outcomes sc_auth_no_scheme "GET" ":/api/v1/users/u1" None
                    sc_state_no_scheme)
             "missing protocol scheme" eq_refl).
  - pose proof (proj2 (makeRequest_outcomes sc_auth "GET"
                         "https://dev.example.com/api/v1/users/u1" None
                         (sc_state [breaks {| do_message := "context deadline exceeded";
                                              do_url_timeout := true |}]))
                  eq_refl) as H.
    destruct H as (req & _ & _ & _ & _ & H). rewrite H. reflexivity.
Defined.

(** With no network the user lookup fails, and both flows return its
    error after that one request. *)
Lemma verification_short_circuits_witness :
  VerifyEmailOrPhone sc_auth "a@x.com" (sc_state [])
  = (Err "request failed: connection refused", sc_after_user [])
  /\ VerifyPasscode sc_auth "a@x.com" "123456" (sc_state [])
     = (Err "request failed: connection refused", sc_after_user []).
Proof.
  apply (proj1 (verification_short_circuits sc_auth "a@x.com" "123456" (sc_state []))).
  vm_compute. reflexivity.
Defined.

(** The three requests of a passcode verification that succeeds: the
    user and the factors are those the provider answered with, and the
    factor posted to is the one selected from them. *)
Lemma VerifyPasscode_success_trace_witness :
  exists (user : User.t) (factors : list any) (factorID factorType : string)
         (st1 st2 : State) (resp : Response) (r1 r2 r3 : Request),
    GetUser sc_auth "a@x.com"
      (sc_state (sc_script [sc_factor_f1] (answers 200 body_malformed)))
    = (Ok user, st1)
    /\ GetUserFactors sc_auth (User.ID user) st1 = (Ok factors, st2)
    /\ VerifyPasscode_factor user "a@x.com" factors = Ok (factorID, factorType)
    /\ makeRequest sc_auth "POST" (verify_url sc_auth user factorID)
         (Some (JObject [("passCode", JString (json_string "123456"));
                         ("stateToken", JString "")])) st2
       = (Ok resp,
          sc_after_verify (sc_script [sc_factor_f1] (answers 200 body_malformed))
            (Some sc_passcode_body))
    /\ is_2xx (StatusCode resp)
    /\ "client-1" = ClientID sc_auth
    /\ sent st1
       = (sent (sc_state (sc_script [sc_factor_f1] (answers 200 body_malformed)))
          ++ [r1])%list
    /\ sent st2
       = (sent (sc_state (sc_script [sc_factor_f1] (answers 200 body_malformed)))
          ++ [r1; r2])%list
    /\ sent (sc_after_verify (sc_script [sc_factor_f1] (answers 200 body_malformed))
               (Some sc_passcode_body))
       = (sent (sc_state (sc_script [sc_factor_f1] (answers 200 body_malformed)))
          ++ [r1; r2; r3])%list
    /\ factorID <> ""
    /\ (Method r1 = "GET"
        /\ URL r1 = Domain sc_auth +:+ "/api/v1/users/" +:+ "a@x.com"
        /\ Body r1 = None)
    /\ (Method r2 = "GET"
        /\ URL r2 = Domain sc_auth +:+ "/api/v1/users/" +:+ User.ID user +:+ "/factors"
        /\ Body r2 = None)
    /\ (Method r3 = "POST"
        /\ URL r3 = Domain sc_auth +:+ "/api/v1/users/" +:+ User.ID user +:+ "/factors/"
                    +:+ factorID +:+ "/verify"
        /\ Body r3 = Some (JObject [("passCode", JString (json_string "123456"));
                                    ("stateToken", JString "")])).
Proof.
  assert (Hok : VerifyPasscode sc_auth "a@x.com" "123456"
                  (sc_state (sc_script [sc_factor_f1] (answers 200 body_malformed)))
                = (Ok "client-1",
                   sc_after_verify (sc_script [sc_factor_f1] (answers 200 body_malformed))
                     (Some sc_passcode_body)))
    by (vm_compute; reflexivity).
  exact (VerifyPasscode_success_trace sc_auth "a@x.com" "123456" _ _ _ Hok).
Defined.

(** The three requests of a verification start that succeeds. *)
Lemma VerifyEmailOrPhone_success_trace_witness :
  exists (user : User.t) (factors : list any) (factorID factorType : string)
         (st1 st2 : State) (resp : Response) (verifyResponse : VerifyFactorResponse)
         (r1 r2 r3 : Request),
    GetUser sc_auth "a@x.com" (sc_state (sc_script [sc_factor_f1] sc_challenge_accepted))
    = (Ok user, st1)
    /\ GetUserFactors sc_auth (User.ID user) st1 = (Ok factors, st2)
    /\ VerifyEmailOrPhone_factor user "a@x.com" factors = Ok (factorID, factorType)
    /\ makeRequest sc_auth "POST" (verify_url sc_auth user factorID) None st2
       = (Ok resp, sc_after_verify (sc_script [sc_factor_f1] sc_challenge_accepted) None)
    /\ (StatusCode resp = 200 \/ StatusCode resp = 202)%Z
    /\ json_Decode_VerifyFactorResponse (RespBody resp) = Ok verifyResponse
    /\ "tok123" = SessionToken verifyResponse
    /\ sent st1
       = (sent (sc_state (sc_script [sc_factor_f1] sc_challenge_accepted)) ++ [r1])%list
    /\ sent st2
       = (sent (sc_state (sc_script [sc_factor_f1] sc_challenge_accepted))
          ++ [r1; r2])%list
    /\ sent (sc_after_verify (sc_script [sc_factor_f1] sc_challenge_accepted) None)
       = (sent (sc_state (sc_script [sc_factor_f1] sc_challenge_accepted))
          ++ [r1; r2; r3])%list
    /\ factorID <> ""
    /\ (Method r1 = "GET"
        /\ URL r1 = Domain sc_auth +:+ "/api/v1/users/" +:+ "a@x.com"
        /\ Body r1 = None)
    /\ (Method r2 = "GET"
        /\ URL r2 = Domain sc_auth +:+ "/api/v1/users/" +:+ User.ID user +:+ "/factors"
        /\ Body r2 = None)
    /\ (Method r3 = "POST"
        /\ URL r3 = Domain sc_auth +:+ "/api/v1/users/" +:+ User.ID user +:+ "/factors/"
                    +:+ factorID +:+ "/verify"
        /\ Body r3 = None).
Proof.
  assert (Hok : VerifyEmailOrPhone sc_auth "a@x.com"
                  (sc_state (sc_script [sc_factor_f1] sc_challenge_accepted))
                = (Ok "tok123",
                   sc_after_verify (sc_script [sc_factor_f1] sc_challenge_accepted) None))
    by (vm_compute; reflexivity).
  exact (VerifyEmailOrPhone_success_trace sc_auth "a@x.com" _ _ _ Hok).
Defined.

(** What is selected from [google; f1] is backed by the entry [f1]. *)
Lemma factor_selection_sound_witness :
  "f1" <> ""
  /\ exists m,
       In (any_map m) [sc_factor_google; sc_factor_f1]
       /\ m !! "provider" = Some (any_string "OKTA")
       /\ m !! "factorType" = Some (any_string "email")
       /\ m !! "id" = Some (any_string "f1")
       /\ (("email" = "email"
            /\ User.Email (User.Profile sc_user) <> ""
            /\ ("a@x.com" = User.Email (User.Profile sc_user)
                \/ "a@x.com" = User.ID sc_user))
           \/ ("email" = "sms"
               /\ User.MobilePhone (User.Profile sc_user) <> ""
               /\ ("a@x.com" = User.MobilePhone (User.Profile sc_user)
                   \/ "a@x.com" = User.ID sc_user))).
Proof.
  apply (factor_selection_sound sc_user "a@x.com" [sc_factor_google; sc_factor_f1]
           "f1" "email").
  left. vm_compute. reflexivity.
Defined.

(** A ["status"] field added to every factor changes nothing. *)
Lemma factor_selection_reads_three_fields_witness :
  VerifyEmailOrPhone_factor sc_user "a@x.com"
    (List.map (add_field "status" (any_string "ACTIVE")) [sc_factor_google; sc_factor_f1])
  = VerifyEmailOrPhone_factor sc_user "a@x.com" [sc_factor_google; sc_factor_f1]
  /\ VerifyPasscode_factor sc_user "a@x.com"
       (List.map (add_field "status" (any_string "ACTIVE")) [sc_factor_google; sc_factor_f1])
     = VerifyPasscode_factor sc_user "a@x.com" [sc_factor_google; sc_factor_f1].
Proof.
  apply (factor_selection_reads_three_fields sc_user "a@x.com" "status"
           (any_string "ACTIVE") [sc_factor_google; sc_factor_f1]); discriminate.
Defined.

(** For identity [u2], looked up by its ID, [f1; s1] selects the email
    factor and [s1; f1] the sms factor. *)
Lemma factor_selection_order_decides_witness :
  VerifyEmailOrPhone_factor sc_user_both "u2" [sc_factor_f1; sc_factor_s1]
  = Ok ("f1", "email")
  /\ VerifyEmailOrPhone_factor sc_user_both "u2" [sc_factor_s1; sc_factor_f1]
     = Ok ("s1", "sms")
  /\ VerifyPasscode_factor sc_user_both "u2" [sc_factor_f1; sc_factor_s1]
     = Ok ("f1", "email")
  /\ VerifyPasscode_factor sc_user_both "u2" [sc_factor_s1; sc_factor_f1]
     = Ok ("s1", "sms").
Proof.
  apply (factor_selection_order_decides sc_user_both "u2"
           (<["provider" := any_string "OKTA"]>
              (<["factorType" := any_string "email"]>
                 (<["id" := any_string "f1"]> ∅)))
           (<["provider" := any_string "OKTA"]>
              (<["factorType" := any_string "sms"]>
                 (<["id" := any_string "s1"]> ∅)))
           "f1" "s1");
    solve [ reflexivity | discriminate ].
Defined.

(** The profile of the one request of a registration by email. *)
Lemma RegisterUser_profile_sent_witness :
  exists new : list Request,
    sent (snd (RegisterUser sc_auth sc_registration
                 (sc_state [answers 201 (body_User sc_user)]))) = new
    /\ Forall (fun r =>
                 exists profile login,
                   payload_profile r = Some profile
                   /\ JSON_get "firstName" profile = Some (JString "John")
                   /\ JSON_get "lastName" profile = Some (JString "Doe")
                   /\ JSON_get "email" profile = Some (JString "john.doe@example.com")
                   /\ JSON_get "mobilePhone" profile = None
                   /\ JSON_get "login" profile = Some (JString login)
                   /\ login = "john.doe@example.com"
                   /\ login <> "")
              new.
Proof.
  assert (Hcontact : Email (Profile sc_registration) <> ""
                     \/ MobilePhone (Profile sc_registration) <> "")
    by (left; discriminate).
  pose proof (RegisterUser_profile_sent sc_auth sc_registration
                (sc_state [answers 201 (body_User sc_user)]) Hcontact) as H.
  destruct H as (H & _). exact H.
Defined.

(** The flags of the one request of a registration by phone. *)
Lemma RegisterUser_flags_sent_witness :
  exists new : list Request,
    sent (snd (RegisterUser sc_auth sc_registration_phone
                 (sc_state [answers 201 (body_User sc_user)]))) = new
    /\ Forall (fun r =>
                 Method r = "POST"
                 /\ URL r = "https://dev.example.com" +:+ "/api/v1/users?activate="
                            +:+ "false"
                 /\ payload_field "activate" r = Some (JBool false)
                 /\ payload_field "sendEmail" r = Some (JBool false)
                 /\ payload_field "sendSMS" r = Some (JBool true))
              new.
Proof.
  assert (Hcontact : Email (Profile sc_registration_phone) <> ""
                     \/ MobilePhone (Profile sc_registration_phone) <> "")
    by (right; discriminate).
  pose proof (RegisterUser_flags_sent sc_auth sc_registration_phone
                (sc_state [answers 201 (body_User sc_user)]) Hcontact) as H.
  exact H.
Defined.

(** In the listed directory ["a@x.com"] is user [00u1], whatever phone
    number comes with the email. *)
Lemma ValidateUser_email_first_witness :
  Okta.ValidateUser "a@x.com" "+19990000" sc_okta_state
  = Okta.ValidateUser "a@x.com" "" sc_okta_state
  /\ Okta.calls (snd (Okta.ValidateUser "a@x.com" "+19990000" sc_okta_state))
     = ([] ++ [Okta.ListUsers ("profile.email eq " +:+ Okta.dquote +:+ "a@x.com"
                               +:+ Okta.dquote)])%list.
Proof.
  assert (Hemail : "a@x.com" <> "") by discriminate.
  exact (ValidateUser_email_first "a@x.com" sc_okta_state Hemail "+19990000" "").
Defined.

(** Looked up by phone alone, ["+15550111"] is user [00u2]. *)
Lemma ValidateUser_success_witness :
  ("" <> "" \/ "+15550111" <> "")
  /\ exists filter first rest,
       filter = "profile.phoneNumber eq " +:+ Okta.dquote +:+ "+15550111" +:+ Okta.dquote
       /\ Okta.UserAPI_ListUsers (SDK := listed) filter sc_directory
          = (Ok (first :: rest), sc_directory)
       /\ "00u2" = Okta.Id first
       /\ Okta.calls (snd (Okta.ValidateUser "" "+15550111" sc_okta_state))
          = ([] ++ [Okta.ListUsers filter])%list.
Proof.
  assert (Hok : Okta.ValidateUser "" "+15550111" sc_okta_state
                = (Ok "00u2", snd (Okta.ValidateUser "" "+15550111" sc_okta_state)))
    by (vm_compute; reflexivity).
  exact (ValidateUser_success "" "+15550111" sc_okta_state _ "00u2" Hok).
Defined.

(** An email nobody has gives "user not found". *)
Lemma ValidateUser_failures_witness :
  fst (Okta.ValidateUser "nobody@x.com" "" sc_okta_state) = Err "user not found".
Proof.
  apply (proj1 (proj2 (ValidateUser_failures sc_okta_state))
           "nobody@x.com" ""
           ("profile.email eq " +:+ Okta.dquote +:+ "nobody@x.com" +:+ Okta.dquote)
           sc_directory).
  - reflexivity.
  - vm_compute. reflexivity.
Defined.
